(** * StudioFlow backend services: a shallow embedding and its properties

    The development follows the four service modules of the backend
    (graph_service.py, csv_service.py, export_service.py, auth_service.py).
    Python [str] values are modelled by [string]; one [ascii] stands for one
    code point below 256.  A [dict] read with [.get] is a [gmap].  Calls into
    third-party libraries (the [float] builtin, pandas, Matplotlib, PIL,
    Firebase, PyJWT) are parameters of the sections that use them. *)

From Stdlib Require Import ZArith Floats Ascii String List Bool Lia.
From stdpp Require Import gmap strings list fin_maps pretty.

Set Warnings "-inexact-float".

Local Open Scope string_scope.
Local Open Scope list_scope.

(* ===================================================================== *)
(** ** Python string primitives *)
(* ===================================================================== *)

Module PyStr.

(** [str.isspace] on one code point below 256: TAB..CR, FS..US and SPACE,
    NEL (0x85) and NBSP (0xA0). *)
Definition is_space (c : ascii) : bool :=
  let n := N_of_ascii c in
  ((9 <=? n) && (n <=? 13) || (28 <=? n) && (n <=? 32)
   || (n =? 133) || (n =? 160))%N.

Fixpoint lstrip (s : string) : string :=
  match s with
  | String c r => if is_space c then lstrip r else s
  | EmptyString => EmptyString
  end.

Fixpoint rstrip (s : string) : string :=
  match s with
  | String c r =>
      match rstrip r with
      | EmptyString => if is_space c then EmptyString else String c EmptyString
      | r' => String c r'
      end
  | EmptyString => EmptyString
  end.

(** [s.strip()] *)
Definition strip (s : string) : string := rstrip (lstrip s).

(** Whether every character of [s] is whitespace (so also for the empty
    string). *)
Fixpoint all_space (s : string) : bool :=
  match s with
  | EmptyString => true
  | String c r => is_space c && all_space r
  end.

(** Truth value of a [str]: non-empty. *)
Definition truthy (s : string) : bool :=
  match s with EmptyString => false | String _ _ => true end.

(** Whether the character [c] occurs in [s]. *)
Fixpoint has_char (c : ascii) (s : string) : bool :=
  match s with
  | EmptyString => false
  | String a r => Ascii.eqb a c || has_char c r
  end.

(** [s.split(sep)] for a one-character separator; never the empty list. *)
Fixpoint split_char (sep : ascii) (s : string) : list string :=
  match s with
  | EmptyString => [EmptyString]
  | String c r =>
      if Ascii.eqb c sep then EmptyString :: split_char sep r
      else match split_char sep r with
           | h :: t => String c h :: t
           | [] => [String c EmptyString]
           end
  end.

(** First occurrence of [sub] in [s]: the text before it and the text after. *)
Fixpoint find_sub (sub s : string) : option (string * string) :=
  if String.prefix sub s
  then Some (EmptyString, string_of_list_ascii
                            (drop (String.length sub) (list_ascii_of_string s)))
  else match s with
       | EmptyString => None
       | String c r =>
           match find_sub sub r with
           | Some (b, a) => Some (String c b, a)
           | None => None
           end
       end.

(** [sub in s] *)
Definition contains (sub s : string) : bool :=
  match find_sub sub s with Some _ => true | None => false end.

(** [s.split(sep)[1]] for a non-empty [sep]; [None] is the IndexError. *)
Definition split_second (sep s : string) : option string :=
  match find_sub sep s with
  | None => None
  | Some (_, a) =>
      Some (match find_sub sep a with Some (b, _) => b | None => a end)
  end.

(** [s.replace(old, new)] for a non-empty [old]: occurrences are replaced
    from the left and do not overlap.  [skip] counts the characters of the
    occurrence just replaced that are still to be passed over. *)
Fixpoint replace_aux (old new : string) (skip : nat) (s : string) : string :=
  match s with
  | EmptyString => EmptyString
  | String c r =>
      match skip with
      | S k => replace_aux old new k r
      | O =>
          if String.prefix old s
          then new +:+ replace_aux old new (String.length old - 1) r
          else String c (replace_aux old new 0 r)
      end
  end.

Definition replace (old new s : string) : string := replace_aux old new 0 s.

(** [''.join(parts)] *)
Definition join (parts : list string) : string :=
  fold_right String.append EmptyString parts.

Definition comma : ascii := ","%char.
Definition space : ascii := " "%char.

End PyStr.

(* ===================================================================== *)
(** ** Python numbers: [int] and [float] *)
(* ===================================================================== *)

Module PyNum.

Inductive num : Type :=
| PyInt (z : Z)
| PyFloat (f : float).

(** [float(z)] for an [int]; the integers of this program are list lengths
    and the literal 0, far inside the exact range of the conversion. *)
Definition float_of_Z (z : Z) : float :=
  if (z <? 0)%Z then PrimFloat.opp (PrimFloat.of_uint63 (Uint63.of_Z (- z)))
  else PrimFloat.of_uint63 (Uint63.of_Z z).

Definition to_float (a : num) : float :=
  match a with PyInt z => float_of_Z z | PyFloat f => f end.

(** [a + b] *)
Definition add (a b : num) : num :=
  match a, b with
  | PyInt x, PyInt y => PyInt (x + y)
  | _, _ => PyFloat (PrimFloat.add (to_float a) (to_float b))
  end.

(** [a < b] *)
Definition ltb (a b : num) : bool :=
  match a, b with
  | PyInt x, PyInt y => (x <? y)%Z
  | _, _ => PrimFloat.ltb (to_float a) (to_float b)
  end.

(** [a == b] *)
Definition eqb (a b : num) : bool :=
  match a, b with
  | PyInt x, PyInt y => (x =? y)%Z
  | _, _ => PrimFloat.eqb (to_float a) (to_float b)
  end.

(** [a / b] with [b] not zero: always a [float]; [0 / n] on two ints is the
    float zero. *)
Definition truediv (a b : num) : num :=
  match a, b with
  | PyInt 0, PyInt _ => PyFloat 0%float
  | _, _ => PyFloat (PrimFloat.div (to_float a) (to_float b))
  end.

(** [sum(l)]: from the int 0, left to right.  (Python 3.12 and later add
    floats with a compensated sum, which can differ from this one in the
    last bits; no property below depends on how floats are added.) *)
Definition py_sum (l : list num) : num := fold_left add l (PyInt 0).

(** [max(l)] keeps the first of equal items: an item replaces the running
    maximum only when it is strictly greater. [None] on the empty list. *)
Definition py_max (l : list num) : option num :=
  match l with
  | [] => None
  | x :: r => Some (fold_left (fun m y => if ltb m y then y else m) r x)
  end.

(** [min(l)] *)
Definition py_min (l : list num) : option num :=
  match l with
  | [] => None
  | x :: r => Some (fold_left (fun m y => if ltb y m then y else m) r x)
  end.

(** A plain decimal literal read as a float: an optional sign, digits, and
    an optional fraction, at most 15 digits in all, so that the value is the
    quotient of two exactly represented integers and one correctly rounded
    division gives what [float] returns.  Every other token is rejected;
    on the tokens Python accepts beyond these (exponents, inf, nan,
    underscores, longer literals) this function is not a model of [float].
    It instantiates the [float] parameter in the examples. *)
Definition digit_val (c : ascii) : option Z :=
  let n := N_of_ascii c in
  if ((48 <=? n) && (n <=? 57))%N then Some (Z.of_N n - 48)%Z else None.

Fixpoint digits_acc (acc : Z) (s : string) : option (Z * string) :=
  match s with
  | String c r =>
      match digit_val c with
      | Some d => digits_acc (10 * acc + d)%Z r
      | None => Some (acc, s)
      end
  | EmptyString => Some (acc, s)
  end.

Definition unsigned_decimal (s : string) : option float :=
  match digits_acc 0 s with
  | Some (ip, rest) =>
      let ni := (String.length s - String.length rest)%nat in
      match rest with
      | EmptyString =>
          if ((0 <? ni) && (ni <=? 15))%nat then Some (float_of_Z ip) else None
      | String "."%char fr =>
          match digits_acc ip fr with
          | Some (m, EmptyString) =>
              let nf := String.length fr in
              if ((0 <? ni + nf) && (ni + nf <=? 15))%nat
              then Some (PrimFloat.div (float_of_Z m) (float_of_Z (10 ^ Z.of_nat nf)))
              else None
          | _ => None
          end
      | _ => None
      end
  | None => None
  end.

Definition decimal_float (s : string) : option float :=
  match s with
  | String "-"%char r => PrimFloat.opp <$> unsigned_decimal r
  | String "+"%char r => unsigned_decimal r
  | _ => unsigned_decimal s
  end.

End PyNum.

Import PyStr PyNum.

(** A call either returns or raises an exception with a message. *)
Inductive outcome (A : Type) : Type :=
| Ret (a : A)
| Raise (msg : string).

Arguments Ret {A} a.
Arguments Raise {A} msg.

(* ===================================================================== *)
(** ** graph_service.py *)
(* ===================================================================== *)

Module GraphService.

Record stats := Stats {
  st_sum : num;
  st_avg : num;
  st_max : num;
  st_min : num
}.

(** The value of [backgroundColor]: one colour, or a list of colours. *)
Inductive color_spec : Type :=
| OneColor (c : string)
| ColorList (l : list string).

Record dataset := Dataset {
  ds_label : string;
  ds_data : list num;
  ds_backgroundColor : color_spec;
  ds_borderColor : string;
  ds_borderWidth : Z
}.

Record chart := Chart {
  ch_labels : list string;
  ch_datasets : list dataset;
  ch_stats : stats
}.

(** What [generate_matplotlib_plot] hands to Matplotlib. *)
Inductive plot_call : Type :=
| PlotLine (labels : list string) (values : list num)
| PlotPie (labels : list string) (values : list num)
| PlotBar (labels : list string) (values : list num).

Record plot_result := PlotResult {
  pr_image : string;
  pr_stats : stats
}.

Definition palette : list string :=
  [ "rgba(13, 148, 136, 0.7)"; "rgba(110, 231, 183, 0.7)";
    "rgba(51, 65, 85, 0.7)"; "rgba(204, 251, 241, 0.7)";
    "rgba(15, 118, 110, 0.7)" ].

(** [_get_colors] *)
Definition get_colors (chart_type : string) (count : nat) : color_spec :=
  if String.eqb chart_type "pie"
  then ColorList (map (fun i => nth (i mod length palette) palette "") (seq 0 count))
  else OneColor (nth 0 palette "").

(** The literal [{'sum': ..., 'avg': ..., 'max': ..., 'min': ...}] that both
    functions build from the final [values] list. *)
Definition stats_of (values : list num) : stats :=
  {| st_sum := py_sum values;
     st_avg := match values with
               | [] => PyInt 0
               | _ :: _ => truediv (py_sum values) (PyInt (Z.of_nat (length values)))
               end;
     st_max := match py_max values with Some m => m | None => PyInt 0 end;
     st_min := match py_min values with Some m => m | None => PyInt 0 end |}.

Section WithFloat.

(** The builtin [float] on a [str]: [None] stands for ValueError. *)
Variable py_float : string -> option float.

(** [[l.strip() for l in raw.split(',') if l.strip()]] *)
Definition comp_labels (raw : string) : list string :=
  map strip (filter (fun l => truthy (strip l) = true) (split_char comma raw)).

(** [[float(v.strip()) for v in raw.split(',') if v.strip()]]; [None] when
    some [float] call raises. *)
Definition comp_values (raw : string) : option (list num) :=
  mapM (fun v => PyFloat <$> py_float (strip v))
       (filter (fun v => truthy (strip v) = true) (split_char comma raw)).

Definition process_chart_data (data : gmap string string) : chart :=
  let raw_labels := default "" (data !! "labels") in
  let raw_values := default "" (data !! "values") in
  let chart_type := default "bar" (data !! "type") in
  let labels := comp_labels raw_labels in
  let values := match comp_values raw_values with
                | Some vs => vs
                | None => []
                end in
  let max_len := Nat.max (length labels) (length values) in
  let labels := take max_len (labels ++ repeat "Label" max_len) in
  let values := take max_len (values ++ repeat (PyInt 0) max_len) in
  {| ch_labels := labels;
     ch_datasets :=
       [ {| ds_label := default "Dataset" (data !! "title");
            ds_data := values;
            ds_backgroundColor := get_colors chart_type (length values);
            ds_borderColor := "#0d9488";
            ds_borderWidth := 1 |} ];
     ch_stats := stats_of values |}.

(** Matplotlib: the figure drawn by the call, titled, saved as PNG and
    base64-encoded; any of these steps may raise (a pie of negative values,
    for instance), and nothing in the function catches it. *)
Variable savefig_b64 : plot_call -> string -> outcome string.

(** The [labels] and [values] lists of [generate_matplotlib_plot] after the
    length-matching step. *)
Definition plot_sequences (data : gmap string string) : list string * list num :=
  let raw_labels := default "" (data !! "labels") in
  let raw_values := default "" (data !! "values") in
  let labels := comp_labels raw_labels in
  let values := match comp_values raw_values with
                | Some vs => vs
                | None => []
                end in
  let max_len := Nat.max (length labels) (length values) in
  let labels := if Nat.ltb (length labels) max_len
                then labels ++ repeat "" (max_len - length labels)
                else labels in
  let values := if Nat.ltb (length values) max_len
                then values ++ repeat (PyInt 0) (max_len - length values)
                else values in
  (labels, values).

(** The plotting call [generate_matplotlib_plot] makes. *)
Definition plot_call_of (data : gmap string string) : plot_call :=
  let chart_type := default "bar" (data !! "type") in
  let '(labels, values) := plot_sequences data in
  if String.eqb chart_type "line" then PlotLine labels values
  else if String.eqb chart_type "pie" then PlotPie labels values
  else PlotBar labels values.

Definition generate_matplotlib_plot (data : gmap string string)
  : outcome plot_result :=
  let title := default "Data Plot" (data !! "title") in
  let '(labels, values) := plot_sequences data in
  match savefig_b64 (plot_call_of data) title with
  | Raise e => Raise e
  | Ret img_str =>
      Ret {| pr_image := "data:image/png;base64," +:+ img_str;
             pr_stats := stats_of values |}
  end.

End WithFloat.

(** The data array of the single dataset of a chart. *)
Definition chart_data (c : chart) : list num :=
  match ch_datasets c with
  | d :: _ => ds_data d
  | [] => []
  end.

(** The statistics as the specification words them: sum, average, maximum
    and minimum of a sequence, the last three 0 on the empty sequence. *)
Definition spec_stats (vs : list num) : stats :=
  match vs with
  | [] => Stats (PyInt 0) (PyInt 0) (PyInt 0) (PyInt 0)
  | v :: r =>
      let total := fold_left add vs (PyInt 0) in
      Stats total
            (truediv total (PyInt (Z.of_nat (length vs))))
            (fold_left (fun m y => if ltb m y then y else m) r v)
            (fold_left (fun m y => if ltb y m then y else m) r v)
  end.

(** The comma-separated tokens of a string: the stripped pieces. *)
Definition tokens (raw : string) : list string :=
  map strip (split_char comma raw).

(** The floats parsed from a comma-separated string, empty on a parse
    failure. *)
Definition parsed_values (py_float : string -> option float) (raw : string)
  : list num :=
  match comp_values py_float raw with Some vs => vs | None => [] end.

(** Sample requests. *)
Definition sample_pad : gmap string string :=
  <["labels" := "a,b"]> (<["values" := "1,2,3"]> ∅).
Definition sample_short : gmap string string :=
  <["labels" := "a,b"]> (<["values" := "5"]> ∅).
Definition sample_bad : gmap string string :=
  <["labels" := "a,b"]> (<["values" := "1,x,3"]> ∅).
Definition sample_no_values : gmap string string :=
  <["labels" := "a,b"]> ∅.

(** The labels and the values of a plotting call. *)
Definition call_labels (c : plot_call) : list string :=
  match c with
  | PlotLine l _ | PlotPie l _ | PlotBar l _ => l
  end.
Definition call_values (c : plot_call) : list num :=
  match c with
  | PlotLine _ v | PlotPie _ v | PlotBar _ v => v
  end.

(** A Matplotlib stand-in that draws everything but a pie whose values do
    not sum to a positive number. *)
Definition sample_savefig (c : plot_call) (title : string) : outcome string :=
  match c with
  | PlotPie _ values =>
      if PyNum.ltb (PyInt 0) (py_sum values) then Ret "iVBORw0KGgo="
      else Raise "cannot draw this pie"
  | _ => Ret "iVBORw0KGgo="
  end.

End GraphService.

(* ===================================================================== *)
(** ** Results of calls that may raise, and Python values *)
(* ===================================================================== *)

(** The scalar values that occur as profile fields and token claims. *)
Inductive pyval : Type :=
| VNone
| VStr (s : string)
| VBool (b : bool)
| VInt (z : Z).

#[global] Instance pyval_eq_dec : EqDecision pyval.
Proof. solve_decision. Defined.


(* ===================================================================== *)
(** ** csv_service.py *)
(* ===================================================================== *)

Module CSVService.

(** A cell of a pandas table as a Python scalar; a missing value is the
    float NaN. *)
Inductive cell : Type :=
| CStr (s : string)
| CInt (z : Z)
| CFloat (f : float)
| CBool (b : bool).

Definition nan_cell : cell := CFloat PrimFloat.nan.

(** [pd.isna] on a scalar cell *)
Definition isna (c : cell) : bool :=
  match c with
  | CFloat f => PrimFloat.is_nan f
  | _ => false
  end.

(** A table: column labels and rows of cells, in order. *)
Record DataFrame := Frame {
  df_columns : list string;
  df_rows : list (list cell)
}.

(** What pandas guarantees of a table it has read: distinct column labels
    (repeated header names are renamed) and one cell per column in each
    row. *)
Definition wf_frame (df : DataFrame) : Prop :=
  NoDup (df_columns df) /\
  Forall (fun r => length r = length (df_columns df)) (df_rows df).

(** One row as a dict: [dict(zip(columns, row))], later keys winning. *)
Definition record_of (columns : list string) (row : list cell)
  : gmap string cell :=
  fold_left (fun m kv => <[kv.1 := kv.2]> m) (zip columns row) ∅.

(** [df.to_dict('records')] *)
Definition to_dict_records (df : DataFrame) : list (gmap string cell) :=
  map (record_of (df_columns df)) (df_rows df).

(** The body of the cleaning loop for one key of one row. *)
Definition clean_cell (c : cell) : cell :=
  if isna c then CStr "" else c.

(** The cells of column [j] of a list of rows. *)
Definition column_cells (rows : list (list cell)) (j : nat) : list cell :=
  omap (fun r => r !! j) rows.

Definition is_float_cell (c : cell) : bool :=
  match c with CFloat _ => true | _ => false end.

Definition is_number_cell (c : cell) : bool :=
  match c with CInt _ | CFloat _ => true | _ => false end.

(** The column type pandas infers for a list of cells that are all ints or
    floats, one float at least (NaN included), is float64; every other
    column keeps its cells as they are. *)
Definition float_column (cells : list cell) : bool :=
  forallb is_number_cell cells && existsb is_float_cell cells.

Definition as_float (c : cell) : cell :=
  match c with
  | CInt z => CFloat (float_of_Z z)
  | _ => c
  end.

Definition coerce_rows (rows : list (list cell)) : list (list cell) :=
  map (fun r =>
         imap (fun j c => if float_column (column_cells rows j)
                          then as_float c else c) r)
      rows.

(** [pd.DataFrame(rows, columns=columns)] on a list of dicts: the cells are
    picked by column label, a missing key giving NaN, and each column then
    takes its inferred type, so that an int beside a NaN or a float becomes
    a float. *)
Definition frame_of_records (rows : list (gmap string cell))
    (columns : list string) : DataFrame :=
  {| df_columns := columns;
     df_rows :=
       coerce_rows
         (map (fun r => map (fun c => default nan_cell (r !! c)) columns) rows) |}.


Inductive import_result : Type :=
| ImportOk (columns : list string) (rows : list (gmap string cell))
           (rowCount columnCount : nat)
| ImportFail (error : string).


Section WithPandas.

(** [pd.read_csv(io.BytesIO(b))], and [df.to_csv(buf, index=False)] with
    the text left in the buffer. *)
Variable read_csv : list Byte.byte -> outcome DataFrame.
Variable to_csv : DataFrame -> outcome string.

Definition import_csv (file_content : list Byte.byte) : import_result :=
  match read_csv file_content with
  | Ret df =>
      let columns := df_columns df in
      let rows := to_dict_records df in
      let rows := map (fun row => clean_cell <$> row) rows in
      ImportOk columns rows (length rows) (length columns)
  | Raise e => ImportFail e
  end.


End WithPandas.



(** A sample upload and stand-ins for the two pandas calls on it: the
    reader knows this one file, the writer joins labels and cells with
    commas, writing only strings and ints. *)
Definition sample_text : string :=
  "a,b" +:+ String (ascii_of_nat 10) "1," +:+ String (ascii_of_nat 10) "".

Definition sample_csv : list Byte.byte := list_byte_of_string sample_text.

Definition sample_frame : DataFrame :=
  Frame ["a"; "b"] [[CInt 1; nan_cell]].

Definition sample_read_csv (b : list Byte.byte) : outcome DataFrame :=
  if String.eqb (string_of_list_byte b) sample_text then Ret sample_frame
  else Raise "No columns to parse from file".




End CSVService.

(* ===================================================================== *)
(** ** auth_service.py *)
(* ===================================================================== *)

Module AuthService.

(** The record the identity provider returns for a user. *)
Record user_record := UserRecord {
  ur_uid : string;
  ur_email : pyval;
  ur_display_name : pyval;
  ur_photo_url : pyval
}.

(** The dict [update_user] returns. *)
Record profile := Profile {
  p_uid : string;
  p_email : pyval;
  p_displayName : pyval;
  p_photoURL : pyval
}.

(** What [jwt.decode] does: it returns the payload, or raises one of the two
    exceptions [verify_session_token] catches, or another one (an unusable
    key, for instance). *)
Inductive jwt_outcome : Type :=
| JwtPayload (claims : gmap string pyval)
| ExpiredSignatureError
| InvalidTokenError
| OtherJwtError (msg : string).

(** The request as the decorator sees it: the Authorization header, and the
    [user] attribute it sets. *)
Record request := Request {
  authorization : option string;
  user : option (gmap string pyval)
}.

(** What the decorated endpoint answers: the decorator's own error body
    with its status, or whatever the endpoint returned. *)
Inductive reply (R : Type) : Type :=
| ErrorReply (error : string) (status : Z)
| HandlerReply (r : R).

Arguments ErrorReply {R} error status.
Arguments HandlerReply {R} r.

Definition allowed : list string :=
  ["email"; "display_name"; "photo_url"; "password"; "disabled"].

(** The TypeError of a call [update_user(uid, **kwargs)] whose keywords
    include the name of a parameter that is already bound.  (With both
    names among the keywords Python reports the one it meets first; here it
    is [self].) *)
Definition binding_error (kwargs : gmap string pyval) : option string :=
  match kwargs !! "self", kwargs !! "uid" with
  | Some _, _ =>
      Some "AuthService.update_user() got multiple values for argument 'self'"
  | None, Some _ =>
      Some "AuthService.update_user() got multiple values for argument 'uid'"
  | None, None => None
  end.

(** Truth value of what a verification returned: [None] and the empty dict
    are false. *)
Definition truthy_claims (d : option (gmap string pyval)) : bool :=
  match d with
  | Some c => bool_decide (c ≠ ∅)
  | None => false
  end.

Section WithProviders.

(** Firebase [auth.verify_id_token] and [auth.update_user], PyJWT
    [jwt.decode(token, key, algorithms=['HS256'])], and [os.getenv]. *)
Variable fb_verify_id_token : string -> outcome (gmap string pyval).
Variable fb_update_user : string -> gmap string pyval -> outcome user_record.
Variable jwt_decode : string -> string -> jwt_outcome.
Variable getenv : string -> option string.

Definition secret_key : string :=
  default "your-secret-key-change-this" (getenv "JWT_SECRET_KEY").

Definition verify_firebase_token (id_token : string)
  : option (gmap string pyval) :=
  match fb_verify_id_token id_token with
  | Ret decoded_token => Some decoded_token
  | Raise _ => None
  end.

Definition verify_session_token (token : string)
  : outcome (option (gmap string pyval)) :=
  match jwt_decode token secret_key with
  | JwtPayload payload => Ret (Some payload)
  | ExpiredSignatureError => Ret None
  | InvalidTokenError => Ret None
  | OtherJwtError e => Raise e
  end.

(** The keyword arguments that pass the filter. *)
Definition update_params (kwargs : gmap string pyval) : gmap string pyval :=
  filter (fun kv => kv.1 ∈ allowed /\ kv.2 ≠ VNone) kwargs.

(** [update_user(uid, **kwargs)]: the call first binds the parameters
    [self] and [uid], so a keyword of either name is a TypeError before the
    body runs; then comes the body. *)
Definition update_user (uid : string) (kwargs : gmap string pyval)
  : outcome (option profile) :=
  match binding_error kwargs with
  | Some e => Raise e
  | None =>
      let params := update_params kwargs in
      if decide (params = ∅) then Ret None
      else match fb_update_user uid params with
           | Ret u =>
               Ret (Some {| p_uid := ur_uid u; p_email := ur_email u;
                            p_displayName := ur_display_name u;
                            p_photoURL := ur_photo_url u |})
           | Raise e => Raise e
           end
  end.

(** [require_auth(f)] applied to a request.  The endpoint [f] reads the
    request with [user] set and may raise; that happens inside the
    decorator's [try]. *)
Definition require_auth {R : Type} (f : request -> outcome R) (req : request)
  : reply R :=
  match authorization req with
  | None => ErrorReply "No authorization header" 401
  | Some auth_header =>
      if negb (truthy auth_header)
      then ErrorReply "No authorization header" 401
      else
        match split_char space auth_header !! 1%nat with
        | None => ErrorReply "Authentication failed" 401
        | Some token =>
            let decoded := verify_firebase_token token in
            match (if truthy_claims decoded then Ret decoded
                   else verify_session_token token) with
            | Raise _ => ErrorReply "Authentication failed" 401
            | Ret decoded =>
                if negb (truthy_claims decoded)
                then ErrorReply "Invalid token" 401
                else
                  match f {| authorization := authorization req;
                             user := decoded |} with
                  | Ret r => HandlerReply r
                  | Raise _ => ErrorReply "Authentication failed" 401
                  end
            end
        end
  end.

End WithProviders.

(** Sample providers: an identity provider that knows one token, a JWT
    decoder that knows, under the default key, one session token and the
    HS256 token whose payload is the empty object, and an environment
    without variables. *)
Definition sample_claims : gmap string pyval :=
  <["uid" := VStr "u1"]> (<["email" := VStr "ann@example.org"]> ∅).

Definition sample_session_claims : gmap string pyval :=
  <["user_id" := VStr "u1"]> (<["email" := VStr "ann@example.org"]> ∅).

Definition empty_payload_token : string :=
  "eyJ0eXAiOiJKV1QiLCJhbGciOiJIUzI1NiJ9.e30.Uk-Bh-Z_q2nXimCIcdoYMYWjd-voY3_G6fpgtC7kCzo".

Definition sample_fb_verify (tok : string) : outcome (gmap string pyval) :=
  if String.eqb tok "id-token" then Ret sample_claims
  else Raise "invalid identity token".

Definition sample_fb_update (uid : string) (params : gmap string pyval)
  : outcome user_record :=
  Ret {| ur_uid := uid;
         ur_email := default VNone (params !! "email");
         ur_display_name := default VNone (params !! "display_name");
         ur_photo_url := default VNone (params !! "photo_url") |}.

Definition sample_jwt_decode (tok key : string) : jwt_outcome :=
  if negb (String.eqb key "your-secret-key-change-this") then InvalidTokenError
  else if String.eqb tok empty_payload_token then JwtPayload ∅
  else if String.eqb tok "session-token" then JwtPayload sample_session_claims
  else InvalidTokenError.

Definition sample_getenv (name : string) : option string := None.

(** An endpoint that answers with the claims it was handed. *)
Definition echo_user (req : request) : outcome (option (gmap string pyval)) :=
  Ret (user req).

(** What the decorator answers once the request is authenticated as
    [claims]: the endpoint's answer, or the 401 of the [except] branch when
    the endpoint raises. *)
Definition run_handler {R : Type} (f : request -> outcome R) (req : request)
    (claims : gmap string pyval) : reply R :=
  match f {| authorization := authorization req; user := Some claims |} with
  | Ret r => HandlerReply r
  | Raise _ => ErrorReply "Authentication failed" 401
  end.

(** The profile built from the provider's record. *)
Definition profile_of (u : user_record) : profile :=
  {| p_uid := ur_uid u; p_email := ur_email u;
     p_displayName := ur_display_name u; p_photoURL := ur_photo_url u |}.

End AuthService.

(* ===================================================================== *)
(** ** export_service.py *)
(* ===================================================================== *)

Module ExportService.

Definition nl : string := String (ascii_of_nat 10) EmptyString.
Definition dq : string := String (ascii_of_nat 34) EmptyString.
Definition lt_char : ascii := "<"%char.
Definition gt_char : ascii := ">"%char.

(** Whether the text after a [<] completes a match of [<[^>]+>]: one
    character other than [>] at least, and a [>] further on. *)
Definition opens_tag (r : string) : bool :=
  match r with
  | EmptyString => false
  | String d r' => negb (Ascii.eqb d gt_char) && has_char gt_char r'
  end.

(** [re.sub(r'<[^>]+>', '', s)], one pass from the left.  With [inside]
    set, the scan is within a match and drops characters up to and
    including the next [>]. *)
Fixpoint sub_tags (inside : bool) (s : string) : string :=
  match s with
  | EmptyString => EmptyString
  | String c r =>
      if inside then
        if Ascii.eqb c gt_char then sub_tags false r else sub_tags true r
      else if Ascii.eqb c lt_char && opens_tag r then sub_tags true r
      else String c (sub_tags false r)
  end.

(** [_clean_html] *)
Definition clean_html (text : string) : string :=
  let text := sub_tags false text in
  let text := replace "&nbsp;" " " text in
  let text := replace "&lt;" "<" text in
  let text := replace "&gt;" ">" text in
  let text := replace "&amp;" "&" text in
  strip text.

(** ReportLab paragraph styles: one of the sample sheet, or one built here
    from a parent. *)
Inductive style : Type :=
| SampleStyle (name : string)
| ParagraphStyle (name parent : string) (fontSize spaceAfter : Z)
                 (textColor : string) (centered : bool).

Definition CustomH1 : style :=
  ParagraphStyle "CustomH1" "Heading1" 24 12 "#1a1a24" false.
Definition CustomH2 : style :=
  ParagraphStyle "CustomH2" "Heading2" 18 10 "#1a1a24" false.
Definition CustomH3 : style :=
  ParagraphStyle "CustomH3" "Heading3" 14 8 "#1a1a24" false.
Definition title_style : style :=
  ParagraphStyle "Title" "Title" 28 20 "#8b5cf6" true.

(** [reportlab.lib.units.inch] *)
Definition inch : float := 72%float.

(** The flowables of a PDF story. *)
Inductive flowable : Type :=
| Paragraph (text : string) (st : style)
| Spacer (width : Z) (height : float)
| RLImage (data : list Byte.byte) (width : Z) (height : float).

(** [block.get('type', 'p')] and the other fields of a block. *)
Definition block_type (block : gmap string string) : string :=
  default "p" (block !! "type").
Definition block_text (block : gmap string string) : string :=
  default "" (block !! "text").
Definition block_content (block : gmap string string) : string :=
  default "" (block !! "content").

(** [content.get('blocks', [])] *)
Definition blocks_of (content : gmap string (list (gmap string string)))
  : list (gmap string string) :=
  default [] (content !! "blocks").

(** The four-way choice on the block type, shared by the three loops. *)
Definition by_type {A : Type} (ty : string) (h1 h2 h3 other : A) : A :=
  if String.eqb ty "h1" then h1
  else if String.eqb ty "h2" then h2
  else if String.eqb ty "h3" then h3
  else other.

(** The body of the loop of [export_to_markdown]. *)
Definition markdown_step (markdown : list string) (block : gmap string string)
  : list string :=
  let ty := block_type block in
  let text := strip (block_text block) in
  if negb (truthy text) then markdown
  else
    let text := clean_html text in
    let markdown :=
      markdown ++ [by_type ty ("# " +:+ text +:+ nl) ("## " +:+ text +:+ nl)
                              ("### " +:+ text +:+ nl) (text +:+ nl)] in
    markdown ++ [nl].

Definition export_to_markdown
    (content : gmap string (list (gmap string string))) : string :=
  join (fold_left markdown_step (blocks_of content) []).

Definition shell_head (title : string) : string :=
  join
    [ "<!DOCTYPE html>"; nl;
      "<html lang="; dq; "en"; dq; ">"; nl;
      "<head>"; nl;
      "    <meta charset="; dq; "UTF-8"; dq; ">"; nl;
      "    <meta name="; dq; "viewport"; dq; " content="; dq; "width=device-width, initial-scale=1.0"; dq; ">"; nl;
      "    <title>"; title; "</title>"; nl;
      "    <style>"; nl;
      "        body {"; nl;
      "            font-family: 'Inter', -apple-system, BlinkMacSystemFont, 'Segoe UI', sans-serif;"; nl;
      "            max-width: 800px;"; nl;
      "            margin: 0 auto;"; nl;
      "            padding: 40px 20px;"; nl;
      "            background: #f9fafb;"; nl;
      "            color: #1a1a24;"; nl;
      "            line-height: 1.6;"; nl;
      "        }"; nl;
      "        h1 {"; nl;
      "            color: #8b5cf6;"; nl;
      "            font-size: 2.5rem;"; nl;
      "            margin-bottom: 1rem;"; nl;
      "        }"; nl;
      "        h2 {"; nl;
      "            color: #1a1a24;"; nl;
      "            font-size: 2rem;"; nl;
      "            margin-top: 2rem;"; nl;
      "            margin-bottom: 0.75rem;"; nl;
      "        }"; nl;
      "        h3 {"; nl;
      "            color: #1a1a24;"; nl;
      "            font-size: 1.5rem;"; nl;
      "            margin-top: 1.5rem;"; nl;
      "            margin-bottom: 0.5rem;"; nl;
      "        }"; nl;
      "        p {"; nl;
      "            margin-bottom: 1rem;"; nl;
      "        }"; nl;
      "        ul, ol {"; nl;
      "            margin-bottom: 1rem;"; nl;
      "            padding-left: 2rem;"; nl;
      "        }"; nl;
      "    </style>"; nl;
      "</head>"; nl;
      "<body>"; nl;
      "    <h1>"; title; "</h1>"; nl ].

Definition shell_tail : string := join ["</body>"; nl; "</html>"].

(** The body of the loop of [export_to_html]. *)
Definition html_step (html : list string) (block : gmap string string)
  : list string :=
  let ty := block_type block in
  let content_html := block_content block in
  if negb (truthy (strip content_html)) then html
  else
    html ++ [by_type ty
               ("    <h1>" +:+ content_html +:+ "</h1>" +:+ nl)
               ("    <h2>" +:+ content_html +:+ "</h2>" +:+ nl)
               ("    <h3>" +:+ content_html +:+ "</h3>" +:+ nl)
               ("    <p>" +:+ content_html +:+ "</p>" +:+ nl)].

Definition export_to_html
    (content : gmap string (list (gmap string string))) (title : string)
  : string :=
  let html := [shell_head title] in
  let html := fold_left html_step (blocks_of content) html in
  let html := html ++ [shell_tail] in
  join html.

Section WithImaging.

(** [base64.b64decode]; PIL [Image.open(...).size] as (width, height);
    ReportLab's reading of a paragraph text, which [Paragraph(text, style)]
    does when it is built and which raises on markup it cannot parse (here
    the message, if it raises); and ReportLab's [doc.build(story)] read back
    from the buffer, which may raise too. *)
Variable b64decode : string -> outcome (list Byte.byte).
Variable image_size : list Byte.byte -> outcome (Z * Z).
Variable paragraph_error : string -> option string.
Variable build_pdf : list flowable -> outcome (list Byte.byte).

(** [Paragraph(text, style)] *)
Definition make_paragraph (text : string) (st : style) : outcome flowable :=
  match paragraph_error text with
  | Some e => Raise e
  | None => Ret (Paragraph text st)
  end.

(** The [try] block of a graph block: the flowables it appends, or the
    exception it prints. *)
Definition graph_flowables (img_data : string) : outcome (list flowable) :=
  let img_data :=
    if contains "base64," img_data
    then default img_data (split_second "base64," img_data)
    else img_data in
  match b64decode img_data with
  | Raise e => Raise e
  | Ret img_bytes =>
      match image_size img_bytes with
      | Raise e => Raise e
      | Ret (width, height) =>
          if (width =? 0)%Z then Raise "float division by zero"
          else
            let aspect := PrimFloat.div (float_of_Z height) (float_of_Z width) in
            let display_width := 450%Z in
            let display_height := PrimFloat.mul (float_of_Z display_width) aspect in
            Ret [ RLImage img_bytes display_width display_height;
                  Spacer 1 (PrimFloat.mul 0.2 inch) ]
      end
  end.

(** The body of the loop of [export_to_pdf]: the story after the block, or
    the exception that leaves the loop. *)
Definition pdf_step (story : list flowable) (block : gmap string string)
  : outcome (list flowable) :=
  let ty := block_type block in
  let text := strip (block_text block) in
  if String.eqb ty "graph" then
    let img_data := block_content block in
    if truthy img_data then
      match graph_flowables img_data with
      | Ret fs => Ret (story ++ fs)
      | Raise _ => Ret story
      end
    else Ret story
  else if negb (truthy text) then Ret story
  else
    let text := clean_html text in
    match by_type ty (make_paragraph text CustomH1) (make_paragraph text CustomH2)
                     (make_paragraph text CustomH3)
                     (make_paragraph text (SampleStyle "BodyText")) with
    | Raise e => Raise e
    | Ret p =>
        let story := story ++ [p] in
        Ret (story ++ [Spacer 1 (PrimFloat.mul 0.1 inch)])
    end.

(** The loop, stopped by the first exception. *)
Definition pdf_loop (blocks : list (gmap string string))
    (story : outcome (list flowable)) : outcome (list flowable) :=
  fold_left (fun acc block =>
               match acc with
               | Ret story => pdf_step story block
               | Raise e => Raise e
               end)
            blocks story.

(** The story [export_to_pdf] builds before handing it to ReportLab. *)
Definition pdf_story (content : gmap string (list (gmap string string)))
    (title : string) : outcome (list flowable) :=
  let story := [] in
  match make_paragraph title title_style with
  | Raise e => Raise e
  | Ret p =>
      let story := story ++ [p] in
      let story := story ++ [Spacer 1 (PrimFloat.mul 0.2 inch)] in
      pdf_loop (blocks_of content) (Ret story)
  end.

Definition export_to_pdf (content : gmap string (list (gmap string string)))
    (title : string) : outcome (list Byte.byte) :=
  match pdf_story content title with
  | Raise e => Raise e
  | Ret story => build_pdf story
  end.

(** The message of the first text of a list that ReportLab cannot read. *)
Fixpoint first_error (texts : list string) : option string :=
  match texts with
  | [] => None
  | t :: rest =>
      match paragraph_error t with
      | Some e => Some e
      | None => first_error rest
      end
  end.

End WithImaging.

(** Whether a block is passed over by the Markdown loop, and by the HTML
    loop. *)
Definition blank_text (block : gmap string string) : bool :=
  negb (truthy (strip (block_text block))).
Definition blank_content (block : gmap string string) : bool :=
  negb (truthy (strip (block_content block))).

(** The Markdown prefix of a block type. *)
Definition md_prefix (ty : string) : string :=
  by_type ty "# " "## " "### " "".

(** The HTML tag name of a block type. *)
Definition html_tag (ty : string) : string :=
  by_type ty "h1" "h2" "h3" "p".

(** The four entities [_clean_html] replaces. *)
Definition entities : list string := ["&nbsp;"; "&lt;"; "&gt;"; "&amp;"].

(** What one block adds to the Markdown text: nothing when its text is
    blank, else the prefix of its type, its cleaned text, a line end, and
    the separating line end. *)
Definition md_block (block : gmap string string) : string :=
  if blank_text block then ""
  else md_prefix (block_type block) +:+ clean_html (strip (block_text block))
       +:+ nl +:+ nl.

(** What one block adds to the HTML text: nothing when its content is
    blank, else its content between the tags of its type, indented. *)
Definition html_block (block : gmap string string) : string :=
  if blank_content block then ""
  else "    <" +:+ html_tag (block_type block) +:+ ">" +:+ block_content block
       +:+ "</" +:+ html_tag (block_type block) +:+ ">" +:+ nl.

(** The paragraph style of a block type in the PDF. *)
Definition pdf_style (ty : string) : style :=
  by_type ty CustomH1 CustomH2 CustomH3 (SampleStyle "BodyText").

(** What one block adds to the PDF story when the loop gets past it: for a
    graph block the image and its spacer when the image can be read, for
    another block nothing when its text is blank, else a paragraph of its
    cleaned text in the style of its type, and a spacer. *)
Definition pdf_block (b64decode : string -> outcome (list Byte.byte))
    (image_size : list Byte.byte -> outcome (Z * Z))
    (block : gmap string string) : list flowable :=
  if String.eqb (block_type block) "graph" then
    if truthy (block_content block) then
      match graph_flowables b64decode image_size (block_content block) with
      | Ret fs => fs
      | Raise _ => []
      end
    else []
  else if blank_text block then []
  else [ Paragraph (clean_html (strip (block_text block)))
                   (pdf_style (block_type block));
         Spacer 1 (PrimFloat.mul 0.1 inch) ].

(** The text of a block that the PDF loop hands to [Paragraph], if it
    hands one: the block is not a graph block and its text is not blank. *)
Definition pdf_text (block : gmap string string) : option string :=
  if String.eqb (block_type block) "graph" then None
  else if blank_text block then None
  else Some (clean_html (strip (block_text block))).

(** All the texts [export_to_pdf] hands to [Paragraph], in order: the title,
    then those of the blocks. *)
Definition pdf_texts (content : gmap string (list (gmap string string)))
    (title : string) : list string :=
  title :: omap pdf_text (blocks_of content).

(** Sample blocks: a heading whose text and content carry markup and an
    entity, and a blank block. *)
Definition sample_heading : gmap string string :=
  <["type" := "h2"]> (<["text" := " <b>Q&amp;A</b> "]>
                      (<["content" := "<b>Q&amp;A</b>"]> ∅)).
Definition sample_blank : gmap string string :=
  <["text" := "   "]> (<["content" := " "]> ∅).
Definition sample_content : gmap string (list (gmap string string)) :=
  <["blocks" := [sample_heading; sample_blank]]> ∅.

(** Imaging stand-ins that read no image. *)
Definition sample_b64decode (s : string) : outcome (list Byte.byte) :=
  Raise "Incorrect padding".
Definition sample_image_size (b : list Byte.byte) : outcome (Z * Z) :=
  Raise "cannot identify image file".

(** ReportLab stand-ins: a reader that takes plain text only, and a builder
    that writes the paragraph texts of the story, one per line. *)
Definition sample_paragraph_error (text : string) : option string :=
  if has_char lt_char text then Some "paragraph text has markup" else None.

Definition sample_build (story : list flowable) : outcome (list Byte.byte) :=
  Ret (list_byte_of_string
         (join (omap (fun f => match f with
                               | Paragraph t _ => Some (t +:+ nl)
                               | _ => None
                               end) story))).

(** A graph block with a caption and a content that is not an image. *)
Definition sample_graph : gmap string string :=
  <["type" := "graph"]> (<["content" := "data:image/png;base64,%%%"]>
                         (<["text" := "caption"]> ∅)).

End ExportService.

(* ===================================================================== *)
(** ** csv_service.py: validation; app.py: the import endpoint *)
(* ===================================================================== *)

Module CSVValidate.
Import CSVService.

Inductive validate_result : Type :=
| Valid (columns : list string) (preview : list (gmap string cell))
        (estimatedRows : nat)
| Invalid (error : string).

(** One part of a multipart upload: its file name and what [file.read()]
    gives, the bytes or the exception it raises. *)
Record upload := Upload {
  filename : string;
  read : outcome (list Byte.byte)
}.

(** What the import endpoint answers: an error body with its status, or the
    service's result as JSON with the default status 200. *)
Inductive import_reply : Type :=
| ImportError (error : string) (status : Z)
| ImportJson (result : import_result).

Section WithPandas.

(** [pd.read_csv(io.BytesIO(b))] and [pd.read_csv(io.BytesIO(b), nrows=n)]. *)
Variable read_csv : list Byte.byte -> outcome DataFrame.
Variable read_csv_nrows : list Byte.byte -> nat -> outcome DataFrame.

(** [validate_csv]: the dict literal is evaluated in order, the full read
    last. *)
Definition validate_csv (file_content : list Byte.byte) : validate_result :=
  match read_csv_nrows file_content 5 with
  | Raise e => Invalid e
  | Ret df =>
      let columns := df_columns df in
      let preview := to_dict_records df in
      match read_csv file_content with
      | Raise e => Invalid e
      | Ret full => Valid columns preview (length (df_rows full))
      end
  end.

(** [jsonify(result)] on the service's result: the message of the exception
    when the result cannot be serialised. *)
Variable jsonify_error : import_result -> option string.

(** The handler of [/api/csv/import] on [request.files], which Flask parses
    from the request body when the handler first reads it and which may
    raise; every exception of the body is answered with its message and the
    status 500. *)
Definition import_csv_endpoint (files : outcome (gmap string upload))
  : import_reply :=
  match files with
  | Raise e => ImportError e 500
  | Ret files =>
      match files !! "file" with
      | None => ImportError "No file provided" 400
      | Some file =>
          if String.eqb (filename file) "" then ImportError "No file selected" 400
          else
            match read file with
            | Raise e => ImportError e 500
            | Ret file_content =>
                let result := import_csv read_csv file_content in
                match jsonify_error result with
                | Some e => ImportError e 500
                | None => ImportJson result
                end
            end
      end
  end.

End WithPandas.

(** The frame a reader returns when told to stop after [n] rows; the sample
    reader with a row limit. *)
Definition sample_read_csv_nrows (b : list Byte.byte) (n : nat)
  : outcome DataFrame :=
  match sample_read_csv b with
  | Ret df => Ret (Frame (df_columns df) (take n (df_rows df)))
  | Raise e => Raise e
  end.

Definition sample_files : gmap string upload :=
  <["file" := Upload "table.csv" (Ret sample_csv)]> ∅.

Definition sample_bad_files : gmap string upload :=
  <["file" := Upload "broken.csv" (Ret [])]> ∅.

(** An upload whose stream cannot be read, and a serialiser that takes every
    result. *)
Definition sample_lost_files : gmap string upload :=
  <["file" := Upload "table.csv" (Raise "client disconnected")]> ∅.

Definition sample_jsonify_error (result : import_result) : option string := None.

End CSVValidate.

(* ===================================================================== *)
(** ** export_service.py: the canvas export *)
(* ===================================================================== *)

Module CanvasExport.

Section WithImaging.

(** [base64.b64decode], and PIL opening the bytes and saving them as PNG. *)
Variable b64decode : string -> outcome (list Byte.byte).
Variable save_as_png : list Byte.byte -> outcome (list Byte.byte).

(** The body of the [try] of [export_canvas_to_png]. *)
Definition canvas_png (canvas_data : string) : outcome (list Byte.byte) :=
  match (if has_char comma canvas_data
         then match split_char comma canvas_data !! 1%nat with
              | Some piece => Ret piece
              | None => Raise "list index out of range"
              end
         else Ret canvas_data) with
  | Raise e => Raise e
  | Ret canvas_data =>
      match b64decode canvas_data with
      | Raise e => Raise e
      | Ret image_bytes => save_as_png image_bytes
      end
  end.

Definition export_canvas_to_png (canvas_data : string)
  : outcome (list Byte.byte) :=
  match canvas_png canvas_data with
  | Ret png_bytes => Ret png_bytes
  | Raise e => Raise ("Failed to export canvas: " +:+ e)
  end.

End WithImaging.

(** Stand-ins: a decoder that knows one payload, and a PNG writer that
    returns its input. *)
Definition sample_decode (s : string) : outcome (list Byte.byte) :=
  if String.eqb s "iVBORw0KGgo=" then Ret (list_byte_of_string "PNG")
  else Raise "Incorrect padding".

Definition sample_save (b : list Byte.byte) : outcome (list Byte.byte) := Ret b.

End CanvasExport.

(* ===================================================================== *)
(** ** auth_service.py: session tokens and user records; app.py: the
       account endpoints *)
(* ===================================================================== *)

Module Sessions.
Import AuthService.

(** Truth value of a scalar. *)
Definition pyval_truthy (v : pyval) : bool :=
  match v with
  | VNone => false
  | VStr s => truthy s
  | VBool b => b
  | VInt z => negb (z =? 0)%Z
  end.

(** [a or b] *)
Definition py_or (a b : pyval) : pyval := if pyval_truthy a then a else b.

(** [len(v)]; only a [str] has a length. *)
Definition py_len (v : pyval) : outcome nat :=
  match v with
  | VStr s => Ret (String.length s)
  | VNone => Raise "object of type 'NoneType' has no len()"
  | VBool _ => Raise "object of type 'bool' has no len()"
  | VInt _ => Raise "object of type 'int' has no len()"
  end.

(** [request.user.get('uid') or request.user.get('user_id')] *)
Definition current_uid (claims : gmap string pyval) : pyval :=
  py_or (default VNone (claims !! "uid")) (default VNone (claims !! "user_id")).

(** The record [auth.get_user] returns, and the dict [get_user_info] makes
    of it. *)
Record fetched_user := FetchedUser {
  fu_uid : pyval;
  fu_email : pyval;
  fu_display_name : pyval;
  fu_photo_url : pyval;
  fu_email_verified : pyval
}.

Record user_info := UserInfo {
  ui_uid : pyval;
  ui_email : pyval;
  ui_displayName : pyval;
  ui_photoURL : pyval;
  ui_emailVerified : pyval
}.

Inductive verify_reply : Type :=
| VerifyError (error : string) (status : Z)
| VerifyOk (sessionToken : string) (user : option user_info).

Inductive update_reply : Type :=
| UpdateError (error : string) (status : Z)
| UpdateOk (user : option profile).

Inductive password_reply : Type :=
| PasswordError (error : string) (status : Z)
| PasswordOk.

Definition week : Z := 7 * 24 * 3600.

Section WithProviders.

(** Firebase [auth.verify_id_token], [auth.get_user] and [auth.update_user]
    (whose uid argument is whatever the caller passes), PyJWT
    [jwt.encode(payload, key, algorithm='HS256')] and [jwt.decode],
    [os.getenv], and the clock: [datetime.utcnow()] in whole seconds since
    the epoch, which is how PyJWT writes a datetime claim. *)
Variable fb_verify_id_token : string -> outcome (gmap string pyval).
Variable fb_get_user : pyval -> outcome fetched_user.
Variable fb_update : pyval -> gmap string pyval -> outcome user_record.
Variable jwt_encode : gmap string pyval -> string -> string.
Variable jwt_decode : string -> string -> jwt_outcome.
Variable getenv : string -> option string.
Variable utcnow : Z.

(** The payload [create_session_token] signs. *)
Definition session_payload (user_id email : pyval) : gmap string pyval :=
  <["user_id" := user_id]>
    (<["email" := email]> (<["exp" := VInt (utcnow + week)]> ∅)).

Definition create_session_token (user_id email : pyval) : string :=
  let payload := session_payload user_id email in
  jwt_encode payload (secret_key getenv).

Definition get_user_info (user_id : pyval) : option user_info :=
  match fb_get_user user_id with
  | Ret u =>
      Some {| ui_uid := fu_uid u; ui_email := fu_email u;
              ui_displayName := fu_display_name u;
              ui_photoURL := fu_photo_url u;
              ui_emailVerified := fu_email_verified u |}
  | Raise _ => None
  end.

(** [update_user] with the uid as the endpoints pass it; their keywords are
    [display_name], [photo_url], [email] and [password], none of which is
    the name of a parameter. *)
Definition update_user_obj (uid : pyval) (kwargs : gmap string pyval)
  : outcome (option profile) :=
  let params := update_params kwargs in
  if decide (params = ∅) then Ret None
  else match fb_update uid params with
       | Ret u => Ret (Some (profile_of u))
       | Raise e => Raise e
       end.

(** [verify_firebase_token] on the JSON value of [idToken]: the identity
    provider raises on anything that is not a string. *)
Definition verify_json_token (id_token : pyval) : option (gmap string pyval) :=
  match id_token with
  | VStr s => verify_firebase_token fb_verify_id_token s
  | _ => None
  end.

(** The endpoint [/api/auth/verify] on the JSON body of the request. *)
Definition verify_token (data : gmap string pyval) : verify_reply :=
  let id_token := default VNone (data !! "idToken") in
  if negb (pyval_truthy id_token) then VerifyError "No token provided" 400
  else
    let decoded := verify_json_token id_token in
    if negb (truthy_claims decoded) then VerifyError "Invalid token" 401
    else
      match decoded with
      | None => VerifyError "Invalid token" 401
      | Some decoded =>
          match decoded !! "uid" with
          | None => VerifyError "'uid'" 500
          | Some uid =>
              let session_token :=
                create_session_token uid (default (VStr "") (decoded !! "email")) in
              let user_info := get_user_info uid in
              VerifyOk session_token user_info
          end
      end.

(** The dict [updates] that [update_profile] builds from the body. *)
Definition profile_updates (data : gmap string pyval) : gmap string pyval :=
  let updates := ∅ in
  let updates := match data !! "displayName" with
                 | Some v => <["display_name" := v]> updates
                 | None => updates
                 end in
  let updates := match data !! "photoURL" with
                 | Some v => <["photo_url" := v]> updates
                 | None => updates
                 end in
  match data !! "email" with
  | Some v => <["email" := v]> updates
  | None => updates
  end.

(** The endpoint [/api/user/profile] inside the decorator: [req] is the
    request with [user] set, [data] its JSON body.  A request without the
    [user] attribute makes the first read raise. *)
Definition update_profile (req : request) (data : gmap string pyval)
  : update_reply :=
  match user req with
  | None => UpdateError "'Request' object has no attribute 'user'" 400
  | Some claims =>
      let uid := current_uid claims in
      let updates := profile_updates data in
      match update_user_obj uid updates with
      | Ret updated_user => UpdateOk updated_user
      | Raise e => UpdateError e 400
      end
  end.

(** The endpoint [/api/user/password] inside the decorator. *)
Definition update_password (req : request) (data : gmap string pyval)
  : password_reply :=
  let password := default VNone (data !! "password") in
  match user req with
  | None => PasswordError "'Request' object has no attribute 'user'" 400
  | Some claims =>
      let uid := current_uid claims in
      if negb (pyval_truthy password)
      then PasswordError "Password must be at least 6 characters" 400
      else
        match py_len password with
        | Raise e => PasswordError e 400
        | Ret n =>
            if (n <? 6)%nat
            then PasswordError "Password must be at least 6 characters" 400
            else
              match update_user_obj uid (<["password" := password]> ∅) with
              | Ret _ => PasswordOk
              | Raise e => PasswordError e 400
              end
        end
  end.

End WithProviders.

(** Stand-ins: an encoder that issues one token, and the decoder that reads
    it back as the payload signed at time 0 for user [u1]. *)
Definition sample_issue (payload : gmap string pyval) (key : string) : string :=
  "issued-token".

Definition sample_read (tok key : string) : jwt_outcome :=
  if String.eqb tok "issued-token"
  then JwtPayload (session_payload 0 (VStr "u1") (VStr "ann@example.org"))
  else InvalidTokenError.

Definition sample_get_user (uid : pyval) : outcome fetched_user :=
  Ret (FetchedUser uid (VStr "ann@example.org") VNone VNone (VBool true)).

Definition sample_update (uid : pyval) (params : gmap string pyval)
  : outcome user_record :=
  match uid with
  | VStr s => sample_fb_update s params
  | _ => Raise "Invalid uid"
  end.

End Sessions.

(* ===================================================================== *)
(** ** app.py: workspaces and invites *)
(* ===================================================================== *)

Module Workspaces.
Import AuthService Sessions.

(** A workspace node of the store, as far as the listing reads it. *)
Record workspace := Workspace {
  w_name : option pyval;
  w_members : option (gmap string pyval)
}.

Record workspace_entry := WorkspaceEntry {
  we_id : string;
  we_name : pyval;
  we_role : pyval
}.

Inductive list_reply : Type :=
| ListError (error : string) (status : Z)
| ListOk (workspaces : list workspace_entry).

(** [members[uid]] when [uid in members]: the keys of a store node are
    strings, so only a string can be among them. *)
Definition member_role (uid : pyval) (members : gmap string pyval)
  : option pyval :=
  match uid with
  | VStr s => members !! s
  | _ => None
  end.

(** The body of the loop of [list_workspaces]. *)
Definition list_step (uid : pyval) (user_workspaces : list workspace_entry)
    (item : string * workspace) : list workspace_entry :=
  let '(wid, wdata) := item in
  let members := default ∅ (w_members wdata) in
  match member_role uid members with
  | Some role =>
      user_workspaces ++
        [ {| we_id := wid;
             we_name := default (VStr "Unnamed") (w_name wdata);
             we_role := role |} ]
  | None => user_workspaces
  end.

Section WithStore.

(** [db.reference('workspaces').get()]: nothing, or the workspaces by id in
    the order the store returns them. *)
Variable db_get_workspaces : outcome (option (list (string * workspace))).

(** The endpoint [/api/workspaces/list] inside the decorator. *)
Definition list_workspaces (req : request) : list_reply :=
  match user req with
  | None => ListError "'Request' object has no attribute 'user'" 500
  | Some claims =>
      let uid := current_uid claims in
      match db_get_workspaces with
      | Raise e => ListError e 500
      | Ret all_workspaces =>
          ListOk (fold_left (list_step uid) (default [] all_workspaces) [])
      end
  end.

End WithStore.

(** The entry the listing shows for one workspace of the store, if it shows
    one: the workspace has a [members] node with the caller's uid among its
    keys. *)
Definition entry_of (uid : pyval) (item : string * workspace)
  : option workspace_entry :=
  match w_members item.2 with
  | Some members =>
      match member_role uid members with
      | Some role =>
          Some {| we_id := item.1;
                  we_name := default (VStr "Unnamed") (w_name item.2);
                  we_role := role |}
      | None => None
      end
  | None => None
  end.

Definition dot : ascii := "."%char.

(** [email.replace('.', ',')], the key under which invites are indexed. *)
Definition safe_email (email : string) : string := replace "." "," email.

Definition sample_store : list (string * workspace) :=
  [ ("w1", Workspace (Some (VStr "Notes")) (Some (<["u1" := VStr "owner"]> ∅)));
    ("w2", Workspace None (Some (<["u2" := VStr "owner"]> ∅)));
    ("w3", Workspace None None) ].

End Workspaces.

(* ===================================================================== *)
(** ** The layout of a PDF story *)
(* ===================================================================== *)

Module PdfLayout.
Import ExportService.

Definition is_spacer (f : flowable) : bool :=
  match f with
  | Spacer _ _ => true
  | _ => false
  end.

(** A story in which every paragraph or image is directly followed by a
    spacer, and every spacer directly follows a paragraph or an image. *)
Fixpoint well_spaced (story : list flowable) : bool :=
  match story with
  | [] => true
  | f :: rest =>
      match rest with
      | g :: rest' => negb (is_spacer f) && is_spacer g && well_spaced rest'
      | [] => false
      end
  end.

(** Sample documents: one with a graph block that cannot be decoded between
    two text blocks, and the same without that block. *)
Definition sample_with_graph : gmap string (list (gmap string string)) :=
  <["blocks" := [sample_heading; sample_graph; sample_heading]]> ∅.

End PdfLayout.

(* ===================================================================== *)
(** * Properties *)
(* ===================================================================== *)

(** ** The primitives on sample inputs *)

Example strip_examples :
  strip "  a b " = "a b" /\ strip "   " = "" /\ strip "" = "" /\
  strip (String (ascii_of_nat 9) "x" +:+ String (ascii_of_nat 10) "") = "x".
Proof. repeat split; reflexivity. Qed.

Example split_char_examples :
  split_char comma "a,,b," = ["a"; ""; "b"; ""] /\
  split_char comma "" = [""] /\
  split_char space "Bearer  tok" = ["Bearer"; ""; "tok"].
Proof. repeat split; reflexivity. Qed.

Example replace_examples :
  replace "&amp;" "&" "x&amp;&amp;amp;y" = "x&&amp;y" /\
  replace "aa" "b" "aaa" = "ba" /\
  split_second "base64," "data:image/png;base64,AAAA" = Some "AAAA".
Proof. repeat split; reflexivity. Qed.

Example decimal_float_examples :
  decimal_float "2.5" = Some 2.5%float /\
  decimal_float "-3" = Some (-3)%float /\
  decimal_float "x" = None /\ decimal_float "" = None.
Proof. repeat split; reflexivity. Qed.

Example clean_html_examples :
  map ExportService.clean_html
      ["<b>x</b> y"; "a < b"; "<>"; "a<b"; "1 < 2 > 3";
       "&lt;b&gt; &amp;amp; &quot;&nbsp;"; "<a<b>c"]
  = ["x y"; "a < b"; "<>"; "a<b"; "1  3"; "<b> &amp; &quot;"; "c"].
Proof. reflexivity. Qed.

Example process_chart_data_example :
  let c := GraphService.process_chart_data decimal_float GraphService.sample_short in
  GraphService.ch_labels c = ["a"; "b"] /\
  GraphService.chart_data c = [PyFloat 5; PyInt 0] /\
  GraphService.ch_stats c
  = GraphService.Stats (PyFloat 5) (PyFloat 2.5) (PyFloat 5) (PyInt 0).
Proof. repeat split; reflexivity. Qed.

(** A column in which a row lacks its key is a float column: the int of
    the other row is written as a float; a column with a string stays as it
    is. *)
Example frame_of_records_example :
  CSVService.frame_of_records
    [<["a" := CSVService.CInt 1]> (<["b" := CSVService.CStr "x"]> ∅); ∅] ["a"; "b"]
  = CSVService.Frame ["a"; "b"]
      [[CSVService.CFloat 1; CSVService.CStr "x"];
       [CSVService.nan_cell; CSVService.nan_cell]].
Proof. vm_compute. reflexivity. Qed.

(** ** Lists and strings *)

Lemma take_repeat {A : Type} (x : A) (n m : nat) :
  n <= m -> take n (repeat x m) = repeat x n.
Proof.
  revert m. induction n as [|n IH]; intros m Hm; [done|].
  destruct m as [|m]; [lia|]. simpl. f_equal. apply IH. lia.
Qed.

Lemma take_pad_gen {A : Type} (l : list A) (x : A) (n m : nat) :
  length l <= n -> n <= length l + m ->
  take n (l ++ repeat x m) = l ++ repeat x (n - length l).
Proof.
  revert n. induction l as [|a l IH]; intros n H1 H2; simpl in *.
  - rewrite Nat.sub_0_r. by apply take_repeat.
  - destruct n as [|n]; [lia|]. simpl. f_equal. apply IH; lia.
Qed.

Lemma take_pad {A : Type} (l : list A) (x : A) (n : nat) :
  length l <= n -> take n (l ++ repeat x n) = l ++ repeat x (n - length l).
Proof. intros H. apply take_pad_gen; lia. Qed.

Lemma mapM_fails {A B : Type} (f : A -> option B) (l : list A) (x : A) :
  x ∈ l -> f x = None -> mapM f l = None.
Proof.
  intros Hx Hf. induction Hx as [x l|x y l _ IH]; cbn.
  - by rewrite Hf.
  - rewrite IH; [|done]. by destruct (f y).
Qed.

Lemma split_char_nonempty (sep : ascii) (s : string) : split_char sep s <> [].
Proof.
  destruct s as [|c r]; simpl; [done|].
  destruct (Ascii.eqb c sep); [done|]. by destruct (split_char sep r).
Qed.

(** ** graph_service.py *)

Module GraphProofs.
Import GraphService.

Lemma sum_zeros (n : nat) : fold_left add (repeat (PyInt 0) n) (PyInt 0) = PyInt 0.
Proof. induction n as [|n IH]; simpl; [done|apply IH]. Qed.

Lemma max_zeros (n : nat) :
  fold_left (fun m y => if ltb m y then y else m) (repeat (PyInt 0) n) (PyInt 0)
  = PyInt 0.
Proof. induction n as [|n IH]; simpl; [done|apply IH]. Qed.

Lemma min_zeros (n : nat) :
  fold_left (fun m y => if ltb y m then y else m) (repeat (PyInt 0) n) (PyInt 0)
  = PyInt 0.
Proof. induction n as [|n IH]; simpl; [done|apply IH]. Qed.

Lemma stats_of_spec (vs : list num) : stats_of vs = spec_stats vs.
Proof. destruct vs as [|v r]; reflexivity. Qed.

Lemma stats_of_zeros (n : nat) :
  stats_of (repeat (PyInt 0) n)
  = Stats (PyInt 0) (if Nat.eqb n 0 then PyInt 0 else PyFloat 0) (PyInt 0) (PyInt 0).
Proof.
  destruct n as [|n]; [reflexivity|].
  unfold stats_of, py_sum, py_max, py_min. rewrite sum_zeros.
  change (repeat (PyInt 0) (S n)) with (PyInt 0 :: repeat (PyInt 0) n).
  cbn beta iota. by rewrite max_zeros, min_zeros.
Qed.

Section WithFloat.

Variable py_float : string -> option float.

(** The final [labels] and [values] of [process_chart_data], from the
    parsed sequences. *)
Lemma process_sequences (data : gmap string string) :
  let c := process_chart_data py_float data in
  let ls := comp_labels (default "" (data !! "labels")) in
  let vs := parsed_values py_float (default "" (data !! "values")) in
  let n := Nat.max (length ls) (length vs) in
  ch_labels c = ls ++ repeat "Label" (n - length ls) /\
  chart_data c = vs ++ repeat (PyInt 0) (n - length vs).
Proof.
  simpl. unfold process_chart_data, chart_data, parsed_values. simpl.
  split; apply take_pad; lia.
Qed.

Lemma plot_sequences_eq (data : gmap string string) :
  let ls := comp_labels (default "" (data !! "labels")) in
  let vs := parsed_values py_float (default "" (data !! "values")) in
  let n := Nat.max (length ls) (length vs) in
  plot_sequences py_float data
  = (ls ++ repeat "" (n - length ls), vs ++ repeat (PyInt 0) (n - length vs)).
Proof.
  simpl. unfold plot_sequences, parsed_values.
  set (ls := comp_labels _). set (vs := match comp_values _ _ with Some v => v | None => [] end).
  f_equal.
  - destruct (Nat.ltb_spec (length ls) (Nat.max (length ls) (length vs))); [done|].
    replace (_ - _) with 0 by lia. simpl. by rewrite app_nil_r.
  - destruct (Nat.ltb_spec (length vs) (Nat.max (length ls) (length vs))); [done|].
    replace (_ - _) with 0 by lia. simpl. by rewrite app_nil_r.
Qed.

Lemma failing_token (raw tok : string) :
  tok ∈ tokens raw -> tok <> "" -> py_float tok = None ->
  parsed_values py_float raw = [].
Proof.
  intros Hin Hne Hf. unfold parsed_values, comp_values.
  unfold tokens in Hin. apply list_elem_of_In, in_map_iff in Hin.
  destruct Hin as (v & <- & Hv). apply list_elem_of_In in Hv.
  rewrite (mapM_fails _ _ v); [done| |by rewrite Hf].
  apply list_elem_of_filter. split; [|done].
  by destruct (strip v).
Qed.

(** C1 (as amended): the stats object of [process_chart_data] is the sum,
    average, maximum and minimum of the returned data array, which is the
    parsed values followed by one 0 for every label beyond them; it is
    computed over the parsed values themselves when there are at least as
    many parsed values as labels; and when no values were parsed, the sum,
    the maximum and the minimum are the int 0 and the average equals 0. *)
Theorem process_chart_data_stats (data : gmap string string) :
  let c := process_chart_data py_float data in
  let ls := comp_labels (default "" (data !! "labels")) in
  let vs := parsed_values py_float (default "" (data !! "values")) in
  ch_stats c = spec_stats (chart_data c) /\
  chart_data c = vs ++ repeat (PyInt 0) (length ls - length vs) /\
  (length ls <= length vs -> ch_stats c = spec_stats vs) /\
  (vs = [] ->
   st_sum (ch_stats c) = PyInt 0 /\ eqb (st_avg (ch_stats c)) (PyInt 0) = true /\
   st_max (ch_stats c) = PyInt 0 /\ st_min (ch_stats c) = PyInt 0).
Proof.
  intros c ls vs.
  assert (Hdata : chart_data c = vs ++ repeat (PyInt 0) (length ls - length vs)).
  { destruct (process_sequences data) as [_ H]. unfold c, vs, ls. rewrite H.
    do 2 f_equal. lia. }
  assert (Hstats : ch_stats c = spec_stats (chart_data c)).
  { unfold c, process_chart_data, chart_data. simpl. apply stats_of_spec. }
  split; [exact Hstats|]. split; [exact Hdata|]. split.
  - intros Hle. rewrite Hstats, Hdata.
    replace (length ls - length vs) with 0 by lia. simpl. by rewrite app_nil_r.
  - intros Hvs.
    rewrite Hstats, Hdata, Hvs, <- stats_of_spec. simpl app.
    rewrite stats_of_zeros. simpl. by destruct (Nat.eqb _ 0).
Qed.

(** C2: when the values string holds a token that is not blank and that
    [float] rejects, the parsed values are all discarded, the returned labels
    are the parsed labels, and the data array is one 0 per label; with
    values [1,x,3] and labels [a,b] the data array is [0, 0]. *)
Theorem process_chart_data_parse_failure (data : gmap string string) :
  let c := process_chart_data py_float data in
  let ls := comp_labels (default "" (data !! "labels")) in
  let raw_values := default "" (data !! "values") in
  (forall tok, tok ∈ tokens raw_values -> tok <> "" -> py_float tok = None ->
     parsed_values py_float raw_values = [] /\
     ch_labels c = ls /\
     chart_data c = repeat (PyInt 0) (length ls)) /\
  (data !! "labels" = Some "a,b" -> data !! "values" = Some "1,x,3" ->
   py_float "x" = None ->
   ch_labels c = ["a"; "b"] /\ chart_data c = [PyInt 0; PyInt 0]).
Proof.
  intros c ls raw_values.
  assert (Hgen : forall tok, tok ∈ tokens raw_values -> tok <> "" ->
            py_float tok = None ->
            parsed_values py_float raw_values = [] /\ ch_labels c = ls /\
            chart_data c = repeat (PyInt 0) (length ls)).
  { intros tok Hin Hne Hf.
    pose proof (failing_token raw_values tok Hin Hne Hf) as Hnil.
    destruct (process_sequences data) as [Hl Hv].
    fold raw_values in Hl, Hv. rewrite Hnil in Hl, Hv. simpl in Hl, Hv.
    fold ls in Hl, Hv. fold c in Hl, Hv.
    rewrite Nat.max_0_r in Hl, Hv. rewrite Nat.sub_diag in Hl.
    rewrite Nat.sub_0_r in Hv. simpl in Hl. rewrite app_nil_r in Hl. done. }
  split; [exact Hgen|].
  intros Hl Hv Hx.
  destruct (Hgen "x") as (_ & H1 & H2); [|done|done|].
  - unfold raw_values. rewrite Hv. apply list_elem_of_In. vm_compute. tauto.
  - unfold ls in H1, H2. rewrite Hl in H1, H2. done.
Qed.

(** C3: after parsing, the returned labels are the parsed labels followed by
    the string [Label] and the data array is the parsed values followed by
    0, each up to the length of the longer of the two, so both have that
    length; with labels [a,b] and values [1,2,3] there are three labels, the
    third being [Label], and three values. *)
Theorem process_chart_data_padding (data : gmap string string) :
  let c := process_chart_data py_float data in
  let ls := comp_labels (default "" (data !! "labels")) in
  let vs := parsed_values py_float (default "" (data !! "values")) in
  let n := Nat.max (length ls) (length vs) in
  ch_labels c = ls ++ repeat "Label" (n - length ls) /\
  chart_data c = vs ++ repeat (PyInt 0) (n - length vs) /\
  length (ch_labels c) = n /\ length (chart_data c) = n /\
  (forall f1 f2 f3,
     data !! "labels" = Some "a,b" -> data !! "values" = Some "1,2,3" ->
     py_float "1" = Some f1 -> py_float "2" = Some f2 -> py_float "3" = Some f3 ->
     ch_labels c = ["a"; "b"; "Label"] /\
     chart_data c = [PyFloat f1; PyFloat f2; PyFloat f3]).
Proof.
  intros c ls vs n.
  destruct (process_sequences data) as [Hl Hv].
  fold c ls vs n in Hl, Hv.
  split; [exact Hl|]. split; [exact Hv|].
  split; [rewrite Hl, length_app, repeat_length; lia|].
  split; [rewrite Hv, length_app, repeat_length; lia|].
  intros f1 f2 f3 Hlab Hval H1 H2 H3.
  assert (Hls : ls = ["a"; "b"]) by (unfold ls; rewrite Hlab; reflexivity).
  assert (Hvs : vs = [PyFloat f1; PyFloat f2; PyFloat f3]).
  { unfold vs. rewrite Hval. simpl default. unfold parsed_values, comp_values.
    change (filter _ (split_char comma "1,2,3")) with ["1"; "2"; "3"].
    rewrite (mapM_Some_2 _ _ [PyFloat f1; PyFloat f2; PyFloat f3]); [done|].
    repeat constructor.
    - change (strip "1") with "1". by rewrite H1.
    - change (strip "2") with "2". by rewrite H2.
    - change (strip "3") with "3". by rewrite H3. }
  rewrite Hl, Hv. unfold n. rewrite Hls, Hvs. done.
Qed.

Variable savefig_b64 : plot_call -> string -> outcome string.

(** C4: [generate_matplotlib_plot] plots the same parsed labels and the same
    parsed values as [process_chart_data] returns, each padded to the longer
    length, the values with 0 as there, the labels with the empty string
    where [process_chart_data] puts [Label]; these are the sequences of the
    call it hands to Matplotlib, and when Matplotlib draws the figure the
    function returns with the stats block of [process_chart_data]. *)
Theorem generate_matplotlib_plot_sequences (data : gmap string string) :
  let c := process_chart_data py_float data in
  let ls := comp_labels (default "" (data !! "labels")) in
  let vs := parsed_values py_float (default "" (data !! "values")) in
  let n := Nat.max (length ls) (length vs) in
  (plot_sequences py_float data).1 = ls ++ repeat "" (n - length ls) /\
  ch_labels c = ls ++ repeat "Label" (n - length ls) /\
  (plot_sequences py_float data).2 = vs ++ repeat (PyInt 0) (n - length vs) /\
  (plot_sequences py_float data).2 = chart_data c /\
  call_labels (plot_call_of py_float data) = (plot_sequences py_float data).1 /\
  call_values (plot_call_of py_float data) = (plot_sequences py_float data).2 /\
  (forall img,
     savefig_b64 (plot_call_of py_float data) (default "Data Plot" (data !! "title"))
     = Ret img ->
     generate_matplotlib_plot py_float savefig_b64 data
     = Ret {| pr_image := "data:image/png;base64," +:+ img;
              pr_stats := ch_stats c |}) /\
  (forall e,
     savefig_b64 (plot_call_of py_float data) (default "Data Plot" (data !! "title"))
     = Raise e ->
     generate_matplotlib_plot py_float savefig_b64 data = Raise e).
Proof.
  intros c ls vs n.
  destruct (process_sequences data) as [Hl Hv].
  pose proof (plot_sequences_eq data) as Hp.
  fold c ls vs n in Hl, Hv, Hp.
  assert (Hstats : stats_of (vs ++ repeat (PyInt 0) (n - length vs)) = ch_stats c).
  { unfold c, process_chart_data. simpl. f_equal. symmetry. apply take_pad. lia. }
  split; [by rewrite Hp|]. split; [done|]. split; [by rewrite Hp|].
  split; [by rewrite Hp, Hv|].
  split; [|split; [|split]].
  - unfold plot_call_of. rewrite Hp.
    by destruct (String.eqb (default "bar" (data !! "type")) "line"),
                (String.eqb (default "bar" (data !! "type")) "pie").
  - unfold plot_call_of. rewrite Hp.
    by destruct (String.eqb (default "bar" (data !! "type")) "line"),
                (String.eqb (default "bar" (data !! "type")) "pie").
  - intros img Himg. unfold generate_matplotlib_plot.
    rewrite Hp, Himg. cbv beta iota zeta. do 2 f_equal. exact Hstats.
  - intros e He. unfold generate_matplotlib_plot. by rewrite Hp, He.
Qed.

End WithFloat.

(** The stats of the request with labels [a,b] and values [5] are those of
    [5.0, 0], not those of the parsed values [5.0]: the average is 2.5 and
    the minimum 0. *)
Lemma stats_not_over_parsed_values :
  ch_stats (process_chart_data decimal_float sample_short)
  <> spec_stats (parsed_values decimal_float "5").
Proof. vm_compute. discriminate. Qed.

Lemma process_chart_data_stats_witness :
  ch_stats (process_chart_data decimal_float sample_pad)
  = spec_stats [PyFloat 1; PyFloat 2; PyFloat 3] /\
  eqb (st_avg (ch_stats (process_chart_data decimal_float sample_no_values)))
      (PyInt 0) = true.
Proof.
  split.
  - apply (process_chart_data_stats decimal_float sample_pad). vm_compute. lia.
  - apply (process_chart_data_stats decimal_float sample_no_values).
    reflexivity.
Defined.

Lemma generate_matplotlib_plot_sequences_witness :
  generate_matplotlib_plot decimal_float sample_savefig sample_pad
  = Ret {| pr_image := "data:image/png;base64,iVBORw0KGgo=";
           pr_stats := Stats (PyFloat 6) (PyFloat 2) (PyFloat 3) (PyFloat 1) |}
  /\
  generate_matplotlib_plot decimal_float sample_savefig
    (<["type" := "pie"]> sample_no_values)
  = Raise "cannot draw this pie".
Proof.
  destruct (generate_matplotlib_plot_sequences decimal_float sample_savefig
              sample_pad) as (_ & _ & _ & _ & _ & _ & Hret & _).
  destruct (generate_matplotlib_plot_sequences decimal_float sample_savefig
              (<["type" := "pie"]> sample_no_values))
    as (_ & _ & _ & _ & _ & _ & _ & Hraise).
  split.
  - apply (Hret "iVBORw0KGgo="). reflexivity.
  - apply (Hraise "cannot draw this pie"). reflexivity.
Defined.

Lemma process_chart_data_parse_failure_witness :
  ch_labels (process_chart_data decimal_float sample_bad) = ["a"; "b"] /\
  chart_data (process_chart_data decimal_float sample_bad) = [PyInt 0; PyInt 0].
Proof.
  apply (process_chart_data_parse_failure decimal_float sample_bad);
    reflexivity.
Defined.

Lemma process_chart_data_padding_witness :
  ch_labels (process_chart_data decimal_float sample_pad) = ["a"; "b"; "Label"] /\
  chart_data (process_chart_data decimal_float sample_pad)
  = [PyFloat 1; PyFloat 2; PyFloat 3].
Proof.
  apply (process_chart_data_padding decimal_float sample_pad); reflexivity.
Defined.

End GraphProofs.

(** ** csv_service.py *)

Module CSVProofs.
Import CSVService.











Section WithPandas.

Variable read_csv : list Byte.byte -> outcome DataFrame.
Variable to_csv : DataFrame -> outcome string.


End WithPandas.

Lemma sample_frame_wf : wf_frame sample_frame.
Proof.
  split.
  - apply NoDup_ListNoDup. repeat constructor; simpl; intuition discriminate.
  - repeat constructor.
Qed.



End CSVProofs.

(** ** auth_service.py *)

Module AuthProofs.
Import AuthService.

Lemma split_char_no_sep (sep : ascii) (s : string) :
  has_char sep s = false -> split_char sep s = [s].
Proof.
  induction s as [|c r IH]; simpl; [done|].
  intros H. apply orb_false_iff in H as [Hc Hr].
  rewrite Hc, (IH Hr). done.
Qed.

Lemma split_char_scheme (sep : ascii) (s t : string) :
  has_char sep s = false ->
  split_char sep (s +:+ String sep t) = s :: split_char sep t.
Proof.
  induction s as [|c r IH]; simpl.
  - intros _. by rewrite Ascii.eqb_refl.
  - intros H. apply orb_false_iff in H as [Hc Hr].
    rewrite Hc, (IH Hr). done.
Qed.

Lemma split_char_head (sep : ascii) (s : string) :
  exists h r, split_char sep s = h :: r.
Proof.
  destruct (split_char sep s) as [|h r] eqn:E; [|by eauto].
  by apply split_char_nonempty in E.
Qed.

Section WithProviders.

Variable fb_verify_id_token : string -> outcome (gmap string pyval).
Variable fb_update_user : string -> gmap string pyval -> outcome user_record.
Variable jwt_decode : string -> string -> jwt_outcome.
Variable getenv : string -> option string.

Local Notation "'verify_fb'" :=
  (verify_firebase_token fb_verify_id_token) (only parsing).
Local Notation "'verify_session'" :=
  (verify_session_token jwt_decode getenv) (only parsing).
Local Notation "'guard'" :=
  (require_auth fb_verify_id_token jwt_decode getenv) (only parsing).

Lemma second_token_nonempty (h token : string) :
  split_char space h !! 1%nat = Some token -> truthy h = true.
Proof. by destruct h. Qed.

(** C7 (as amended): the decorator answers 401 when the Authorization header
    is absent, when it holds no space, and when both verifications of the
    token fail (the session verification returning nothing, or raising); when the identity provider rejects the token and the session
    verification returns a non-empty set of claims, the endpoint runs with
    those claims; when the identity provider returns a non-empty set of
    claims, the endpoint runs with them. *)
Theorem require_auth_outcomes {R : Type} (f : request -> outcome R)
    (req : request) :
  (authorization req = None ->
   guard f req = ErrorReply "No authorization header" 401) /\
  (forall h, authorization req = Some h -> has_char space h = false ->
   exists msg, guard f req = ErrorReply msg 401) /\
  (forall h token, authorization req = Some h ->
   split_char space h !! 1%nat = Some token ->
   verify_fb token = None -> verify_session token = Ret None ->
   guard f req = ErrorReply "Invalid token" 401) /\
  (forall h token e, authorization req = Some h ->
   split_char space h !! 1%nat = Some token ->
   verify_fb token = None -> verify_session token = Raise e ->
   guard f req = ErrorReply "Authentication failed" 401) /\
  (forall h token claims, authorization req = Some h ->
   split_char space h !! 1%nat = Some token ->
   verify_fb token = None -> verify_session token = Ret (Some claims) ->
   claims <> ∅ ->
   guard f req = run_handler f req claims) /\
  (forall h token claims, authorization req = Some h ->
   split_char space h !! 1%nat = Some token ->
   verify_fb token = Some claims -> claims <> ∅ ->
   guard f req = run_handler f req claims).
Proof.
  unfold require_auth, run_handler. repeat split.
  - by intros ->.
  - intros h -> Hns. destruct (truthy h); simpl; [|by eauto].
    rewrite (split_char_no_sep _ _ Hns). simpl. by eauto.
  - intros h token -> Htok Hfb Hs.
    rewrite (second_token_nonempty _ _ Htok), Htok, Hfb, Hs. done.
  - intros h token e -> Htok Hfb Hs.
    rewrite (second_token_nonempty _ _ Htok), Htok, Hfb, Hs. done.
  - intros h token claims -> Htok Hfb Hs Hne.
    rewrite (second_token_nonempty _ _ Htok), Htok, Hfb, Hs. simpl.
    unfold truthy_claims. rewrite !bool_decide_true by done. reflexivity.
  - intros h token claims -> Htok Hfb Hne.
    rewrite (second_token_nonempty _ _ Htok), Htok, Hfb. simpl.
    unfold truthy_claims. rewrite !bool_decide_true by done. reflexivity.
Qed.

(** C10: two headers that differ only in the scheme word before the first
    space get the same answer from the decorator, for every endpoint that
    reads the authenticated claims: the scheme is never looked at. *)
Theorem require_auth_ignores_scheme {R : Type}
    (g : option (gmap string pyval) -> outcome R)
    (s1 s2 t : string) (u1 u2 : option (gmap string pyval)) :
  has_char space s1 = false -> has_char space s2 = false ->
  guard (fun r => g (user r)) (Request (Some (s1 +:+ String space t)) u1)
  = guard (fun r => g (user r)) (Request (Some (s2 +:+ String space t)) u2).
Proof.
  intros H1 H2. unfold require_auth. simpl.
  rewrite !split_char_scheme by done.
  destruct (split_char_head space t) as (h & r & ->). simpl.
  replace (truthy (s1 +:+ String space t)) with true by (by destruct s1).
  replace (truthy (s2 +:+ String space t)) with true by (by destruct s2).
  done.
Qed.

Lemma update_params_lookup (kwargs : gmap string pyval) (k : string) (v : pyval) :
  update_params kwargs !! k = Some v <->
  kwargs !! k = Some v /\ k ∈ allowed /\ v <> VNone.
Proof. unfold update_params. by rewrite map_lookup_filter_Some. Qed.

Lemma update_params_unknown (kwargs : gmap string pyval) (k : string) (v : pyval) :
  k ∉ allowed ->
  update_params (<[k := v]> kwargs) = update_params (delete k kwargs).
Proof.
  intros Hk. apply map_eq. intros i.
  apply option_eq. intros x. rewrite !update_params_lookup.
  destruct (decide (i = k)) as [->|Hne].
  - rewrite lookup_insert_eq, lookup_delete_eq.
    split; [intros (_ & ? & _); done | intros (? & _); done].
  - by rewrite lookup_insert_ne, lookup_delete_ne.
Qed.

Lemma binding_error_other (kwargs : gmap string pyval) (k : string) (v : pyval) :
  k <> "uid" -> k <> "self" ->
  binding_error (<[k := v]> kwargs) = binding_error (delete k kwargs).
Proof.
  intros Hu Hs. unfold binding_error.
  by rewrite !lookup_insert_ne, !lookup_delete_ne by done.
Qed.

(** C9 (as amended): the identity provider is called with exactly the
    fields of the allow-list whose value is not None (so with no field
    outside the allow-list); a field outside the allow-list whose name is
    not that of a parameter of the function ([uid], [self]) changes nothing:
    the call with it returns, or raises, exactly as the call without it;
    a keyword named [uid] or [self] makes the call raise. *)
Theorem update_user_allow_list (uid : string) (kwargs : gmap string pyval) :
  (forall k v, update_params kwargs !! k = Some v ->
     k ∈ allowed /\ kwargs !! k = Some v) /\
  (kwargs !! "uid" = None -> kwargs !! "self" = None ->
   update_params kwargs <> ∅ ->
   update_user fb_update_user uid kwargs
   = match fb_update_user uid (update_params kwargs) with
     | Ret u => Ret (Some (profile_of u))
     | Raise e => Raise e
     end) /\
  (kwargs !! "uid" = None -> kwargs !! "self" = None ->
   update_params kwargs = ∅ -> update_user fb_update_user uid kwargs = Ret None) /\
  (forall k v, k ∉ allowed -> k <> "uid" -> k <> "self" ->
     update_params (<[k := v]> kwargs) = update_params (delete k kwargs) /\
     update_user fb_update_user uid (<[k := v]> kwargs)
     = update_user fb_update_user uid (delete k kwargs)) /\
  (is_Some (kwargs !! "uid") \/ is_Some (kwargs !! "self") ->
   exists e, update_user fb_update_user uid kwargs = Raise e).
Proof.
  split; [|split; [|split; [|split]]].
  - intros k v H. by apply update_params_lookup in H as (? & ? & ?).
  - intros Hu Hs Hne. unfold update_user, binding_error.
    rewrite Hu, Hs. by rewrite decide_False.
  - intros Hu Hs He. unfold update_user, binding_error.
    rewrite Hu, Hs. by rewrite decide_True.
  - intros k v Hk Hu Hs. split; [by apply update_params_unknown|].
    unfold update_user.
    by rewrite binding_error_other, update_params_unknown.
  - intros H. unfold update_user, binding_error.
    destruct (kwargs !! "self"); [by eauto|].
    destruct (kwargs !! "uid"); [by eauto|].
    destruct H as [[? H]|[? H]]; done.
Qed.

End WithProviders.

(** A session token with the empty payload passes [jwt.decode], yet the
    decorator answers 401 and the endpoint does not run. *)
Lemma empty_session_claims_rejected :
  verify_firebase_token sample_fb_verify empty_payload_token = None /\
  verify_session_token sample_jwt_decode sample_getenv empty_payload_token
  = Ret (Some ∅) /\
  require_auth sample_fb_verify sample_jwt_decode sample_getenv echo_user
    (Request (Some ("Bearer " +:+ empty_payload_token)) None)
  = ErrorReply "Invalid token" 401.
Proof. repeat split; vm_compute; reflexivity. Qed.

Lemma require_auth_outcomes_witness :
  require_auth sample_fb_verify sample_jwt_decode sample_getenv echo_user
    (Request (Some "Bearer session-token") None)
  = HandlerReply (Some sample_session_claims) /\
  require_auth sample_fb_verify sample_jwt_decode sample_getenv echo_user
    (Request (Some "Bearer id-token") None)
  = HandlerReply (Some sample_claims) /\
  require_auth sample_fb_verify sample_jwt_decode sample_getenv echo_user
    (Request (Some "Bearer bad") None)
  = ErrorReply "Invalid token" 401 /\
  require_auth sample_fb_verify sample_jwt_decode sample_getenv echo_user
    (Request None None)
  = ErrorReply "No authorization header" 401.
Proof.
  split; [|split; [|split]].
  - destruct (require_auth_outcomes sample_fb_verify
                sample_jwt_decode sample_getenv echo_user
                (Request (Some "Bearer session-token") None))
      as (_ & _ & _ & _ & H & _).
    apply (H "Bearer session-token" "session-token"); try reflexivity.
    apply insert_non_empty.
  - destruct (require_auth_outcomes sample_fb_verify
                sample_jwt_decode sample_getenv echo_user
                (Request (Some "Bearer id-token") None))
      as (_ & _ & _ & _ & _ & H).
    apply (H "Bearer id-token" "id-token"); try reflexivity.
    apply insert_non_empty.
  - destruct (require_auth_outcomes sample_fb_verify
                sample_jwt_decode sample_getenv echo_user
                (Request (Some "Bearer bad") None))
      as (_ & _ & H & _).
    apply (H "Bearer bad" "bad"); reflexivity.
  - destruct (require_auth_outcomes sample_fb_verify
                sample_jwt_decode sample_getenv echo_user
                (Request None None))
      as (H & _).
    apply H. reflexivity.
Defined.

Lemma require_auth_ignores_scheme_witness :
  require_auth sample_fb_verify sample_jwt_decode sample_getenv
    (fun r => Ret (user r)) (Request (Some "Basic id-token") None)
  = require_auth sample_fb_verify sample_jwt_decode sample_getenv
    (fun r => Ret (user r)) (Request (Some "Bearer id-token") None).
Proof.
  apply (require_auth_ignores_scheme sample_fb_verify sample_jwt_decode
           sample_getenv Ret "Basic" "Bearer" "id-token" None None);
    reflexivity.
Defined.

(** A keyword named [uid] is outside the allow-list, yet it is not dropped:
    the call with it raises, where the call without it returns the updated
    profile. *)
Lemma uid_keyword_rejected :
  ("uid" ∉ allowed) /\
  update_user sample_fb_update "u1"
    (<["uid" := VStr "u2"]> (<["email" := VStr "ann@example.org"]> ∅))
  = Raise "AuthService.update_user() got multiple values for argument 'uid'" /\
  update_user sample_fb_update "u1" (<["email" := VStr "ann@example.org"]> ∅)
  = Ret (Some (Profile "u1" (VStr "ann@example.org") VNone VNone)).
Proof.
  split; [|split; reflexivity].
  intros H. apply list_elem_of_In in H. simpl in H. intuition discriminate.
Qed.

Lemma update_user_allow_list_witness :
  update_user sample_fb_update "u1"
    (<["role" := VStr "admin"]> (<["email" := VStr "ann@example.org"]> ∅))
  = update_user sample_fb_update "u1"
      (delete "role" (<["email" := VStr "ann@example.org"]> ∅)).
Proof.
  apply (update_user_allow_list sample_fb_update "u1"
           (<["email" := VStr "ann@example.org"]> ∅));
    [|discriminate|discriminate].
  intros H. apply list_elem_of_In in H. simpl in H. intuition discriminate.
Defined.

End AuthProofs.

(** ** export_service.py *)

Lemma string_app_assoc (a b c : string) : (a +:+ b) +:+ c = a +:+ (b +:+ c).
Proof.
  induction a as [|x a IH]; [done|].
  change (String x ((a +:+ b) +:+ c) = String x (a +:+ (b +:+ c))).
  by rewrite IH.
Qed.

Lemma string_app_nil_r (a : string) : a +:+ "" = a.
Proof.
  induction a as [|x a IH]; [done|].
  change (String x (a +:+ "") = String x a). by rewrite IH.
Qed.

Lemma join_app (l1 l2 : list string) : join (l1 ++ l2) = join l1 +:+ join l2.
Proof.
  induction l1 as [|x l1 IH]; [done|].
  change (x +:+ join (l1 ++ l2) = (x +:+ join l1) +:+ join l2).
  by rewrite IH, string_app_assoc.
Qed.

Lemma replace_absent (old new s : string) :
  contains old s = false -> replace old new s = s.
Proof.
  unfold contains, replace. induction s as [|c r IH]; [done|].
  cbn [find_sub replace_aux].
  destruct (String.prefix old (String c r)); [done|].
  destruct (find_sub old r) as [[b a]|]; [done|].
  intros _. f_equal. by apply IH.
Qed.

Module ExportProofs.
Import ExportService.

Lemma sub_tags_no_lt (s : string) :
  has_char lt_char s = false -> sub_tags false s = s.
Proof.
  induction s as [|c r IH]; simpl; [done|].
  intros H. apply orb_false_iff in H as [Hc Hr].
  rewrite Hc. simpl. by rewrite (IH Hr).
Qed.

Lemma clean_html_plain (s : string) :
  has_char lt_char s = false ->
  (forall e, e ∈ entities -> contains e s = false) ->
  clean_html s = strip s.
Proof.
  intros Hlt He. unfold clean_html. rewrite (sub_tags_no_lt _ Hlt).
  assert (Hin : forall e, In e entities -> contains e s = false)
    by (intros e H; apply He, list_elem_of_In, H).
  rewrite (replace_absent "&nbsp;" " " s) by (apply Hin; simpl; tauto).
  rewrite (replace_absent "&lt;" "<" s) by (apply Hin; simpl; tauto).
  rewrite (replace_absent "&gt;" ">" s) by (apply Hin; simpl; tauto).
  rewrite (replace_absent "&amp;" "&" s) by (apply Hin; simpl; tauto).
  done.
Qed.

Lemma by_type_map {A B : Type} (f : A -> B) (ty : string) (h1 h2 h3 other : A) :
  f (by_type ty h1 h2 h3 other) = by_type ty (f h1) (f h2) (f h3) (f other).
Proof.
  unfold by_type.
  by destruct (String.eqb ty "h1"), (String.eqb ty "h2"), (String.eqb ty "h3").
Qed.

Lemma by_type_other {A : Type} (ty : string) (h1 h2 h3 other : A) :
  ty <> "h1" -> ty <> "h2" -> ty <> "h3" -> by_type ty h1 h2 h3 other = other.
Proof.
  intros H1 H2 H3. unfold by_type.
  apply String.eqb_neq in H1, H2, H3. by rewrite H1, H2, H3.
Qed.

Lemma markdown_step_spec (markdown : list string) (block : gmap string string) :
  join (markdown_step markdown block) = join markdown +:+ md_block block.
Proof.
  unfold markdown_step, md_block, blank_text, md_prefix.
  destruct (truthy (strip (block_text block))); simpl negb; cbv iota.
  - rewrite <- app_assoc, join_app. f_equal.
    set (text := clean_html _).
    rewrite (by_type_map (fun p => p +:+ text +:+ nl +:+ nl)).
    match goal with
    | |- join ([?line] ++ [nl]) = ?rhs => change (line +:+ nl = rhs)
    end.
    rewrite (by_type_map (fun line => line +:+ nl)), !string_app_assoc.
    reflexivity.
  - by rewrite string_app_nil_r.
Qed.

Lemma markdown_fold (blocks : list (gmap string string)) (markdown : list string) :
  join (fold_left markdown_step blocks markdown)
  = join markdown +:+ join (map md_block blocks).
Proof.
  revert markdown. induction blocks as [|b bs IH]; intros markdown; simpl.
  - by rewrite string_app_nil_r.
  - rewrite IH, markdown_step_spec, string_app_assoc. done.
Qed.

Lemma html_step_spec (html : list string) (block : gmap string string) :
  join (html_step html block) = join html +:+ html_block block.
Proof.
  unfold html_step, html_block, blank_content, html_tag.
  destruct (truthy (strip (block_content block))); simpl negb; cbv iota.
  - rewrite join_app. f_equal.
    set (c := block_content block).
    rewrite (by_type_map
               (fun tag => "    <" +:+ tag +:+ ">" +:+ c +:+ "</" +:+ tag +:+ ">" +:+ nl)).
    simpl. by rewrite string_app_nil_r.
  - by rewrite string_app_nil_r.
Qed.

Lemma html_fold (blocks : list (gmap string string)) (html : list string) :
  join (fold_left html_step blocks html)
  = join html +:+ join (map html_block blocks).
Proof.
  revert html. induction blocks as [|b bs IH]; intros html; simpl.
  - by rewrite string_app_nil_r.
  - rewrite IH, html_step_spec, string_app_assoc. done.
Qed.

Lemma all_space_lstrip (s : string) : all_space s = true <-> lstrip s = "".
Proof.
  induction s as [|c r IH]; simpl; [done|].
  destruct (is_space c); simpl; [exact IH|]. split; discriminate.
Qed.

Lemma lstrip_head (s : string) (c : ascii) (r : string) :
  lstrip s = String c r -> is_space c = false.
Proof.
  induction s as [|a s IH]; simpl; [done|].
  destruct (is_space a) eqn:E; [exact IH|]. by intros [= <- _].
Qed.

Lemma rstrip_empty (s : string) : rstrip s = "" -> all_space s = true.
Proof.
  induction s as [|c r IH]; simpl; [done|].
  destruct (rstrip r); [|done].
  destruct (is_space c); [|done]. intros _. by apply IH.
Qed.

Lemma strip_empty_iff (s : string) : strip s = "" <-> all_space s = true.
Proof.
  unfold strip. split.
  - intros H. apply rstrip_empty in H. apply all_space_lstrip.
    destruct (lstrip s) as [|c r] eqn:E; [done|].
    apply lstrip_head in E. simpl in H. by rewrite E in H.
  - intros H. apply all_space_lstrip in H. by rewrite H.
Qed.

Lemma blank_text_iff (block : gmap string string) :
  blank_text block = true <-> all_space (block_text block) = true.
Proof.
  unfold blank_text. rewrite <- strip_empty_iff.
  by destruct (strip (block_text block)).
Qed.

Lemma md_block_nonblank (block : gmap string string) :
  blank_text block = false ->
  md_block block
  = md_prefix (block_type block) +:+ clean_html (strip (block_text block))
    +:+ nl +:+ nl.
Proof. unfold md_block. by intros ->. Qed.

(** C8: the Markdown text is the concatenation, block after block, of what
    each block adds; a block whose text is empty or all whitespace adds
    nothing; any other block adds its cleaned text on one line, after
    [# ], [## ] or [### ] for the types h1, h2 and h3 and bare for every
    other type, and then an empty line. *)
Theorem export_to_markdown_blocks
    (content : gmap string (list (gmap string string))) :
  export_to_markdown content = join (map md_block (blocks_of content)) /\
  forall block,
    let text := clean_html (strip (block_text block)) in
    (blank_text block = true <-> all_space (block_text block) = true) /\
    (blank_text block = true -> md_block block = "") /\
    (blank_text block = false ->
       (block_type block = "h1" -> md_block block = "# " +:+ text +:+ nl +:+ nl) /\
       (block_type block = "h2" -> md_block block = "## " +:+ text +:+ nl +:+ nl) /\
       (block_type block = "h3" -> md_block block = "### " +:+ text +:+ nl +:+ nl) /\
       (block_type block <> "h1" -> block_type block <> "h2" ->
        block_type block <> "h3" -> md_block block = text +:+ nl +:+ nl)).
Proof.
  split.
  - unfold export_to_markdown. by rewrite markdown_fold.
  - intros block text. split; [apply blank_text_iff|]. split.
    + unfold md_block. by intros ->.
    + intros Hnb. rewrite (md_block_nonblank _ Hnb). fold text.
      unfold md_prefix. repeat split.
      * by intros ->.
      * by intros ->.
      * by intros ->.
      * intros H1 H2 H3. by rewrite by_type_other.
Qed.

Section WithImaging.

Variable b64decode : string -> outcome (list Byte.byte).
Variable image_size : list Byte.byte -> outcome (Z * Z).

Lemma graph_flowables_no_paragraph (img_data : string) (fs : list flowable) :
  graph_flowables b64decode image_size img_data = Ret fs ->
  forall text st, Paragraph text st ∉ fs.
Proof.
  unfold graph_flowables.
  destruct (b64decode _) as [bytes|e]; [|done].
  destruct (image_size bytes) as [[w h]|e]; [|done].
  destruct (w =? 0)%Z; [done|]. intros [= <-].
  intros text st Hin. apply list_elem_of_In in Hin. simpl in Hin.
  intuition discriminate.
Qed.

Lemma pdf_block_graph (block : gmap string string) :
  block_type block = "graph" ->
  pdf_text block = None /\
  forall text st, Paragraph text st ∉ pdf_block b64decode image_size block.
Proof.
  intros Hty. unfold pdf_text, pdf_block. rewrite Hty. simpl String.eqb. cbv iota.
  split; [done|]. intros text st.
  destruct (truthy (block_content block)); [|by apply not_elem_of_nil].
  destruct (graph_flowables _ _ _) as [fs|e] eqn:E; [|by apply not_elem_of_nil].
  by apply (graph_flowables_no_paragraph _ _ E).
Qed.

Variable paragraph_error : string -> option string.

Lemma pdf_step_spec (story : list flowable) (block : gmap string string) :
  pdf_step b64decode image_size paragraph_error story block
  = match pdf_text block with
    | Some t =>
        match paragraph_error t with
        | Some e => Raise e
        | None => Ret (story ++ pdf_block b64decode image_size block)
        end
    | None => Ret (story ++ pdf_block b64decode image_size block)
    end.
Proof.
  unfold pdf_step, pdf_block, pdf_text, blank_text, pdf_style. cbv zeta.
  destruct (String.eqb (block_type block) "graph").
  - destruct (truthy (block_content block)); [|by rewrite app_nil_r].
    destruct (graph_flowables _ _ _); [done|by rewrite app_nil_r].
  - destruct (truthy (strip (block_text block))); simpl negb; cbv iota.
    + rewrite <- (by_type_map
                    (make_paragraph paragraph_error
                       (clean_html (strip (block_text block))))).
      unfold make_paragraph.
      destruct (paragraph_error _); [done|]. by rewrite <- app_assoc.
    + by rewrite app_nil_r.
Qed.

Lemma pdf_loop_raise (blocks : list (gmap string string)) (e : string) :
  pdf_loop b64decode image_size paragraph_error blocks (Raise e) = Raise e.
Proof. induction blocks as [|b bs IH]; [done|exact IH]. Qed.

Lemma pdf_fold (blocks : list (gmap string string)) (story : list flowable) :
  pdf_loop b64decode image_size paragraph_error blocks (Ret story)
  = match first_error paragraph_error (omap pdf_text blocks) with
    | Some e => Raise e
    | None => Ret (story ++ concat (map (pdf_block b64decode image_size) blocks))
    end.
Proof.
  revert story. induction blocks as [|b bs IH]; intros story.
  - simpl. by rewrite app_nil_r.
  - change (pdf_loop b64decode image_size paragraph_error (b :: bs) (Ret story))
      with (pdf_loop b64decode image_size paragraph_error bs
              (pdf_step b64decode image_size paragraph_error story b)).
    rewrite pdf_step_spec.
    change (omap pdf_text (b :: bs))
      with (match pdf_text b with
            | Some t => t :: omap pdf_text bs
            | None => omap pdf_text bs
            end).
    simpl map. simpl concat.
    destruct (pdf_text b) as [t|].
    + simpl first_error. destruct (paragraph_error t) as [e|].
      * apply pdf_loop_raise.
      * by rewrite IH, <- app_assoc.
    + by rewrite IH, <- app_assoc.
Qed.

Lemma pdf_story_spec (content : gmap string (list (gmap string string)))
    (title : string) :
  pdf_story b64decode image_size paragraph_error content title
  = match first_error paragraph_error (pdf_texts content title) with
    | Some e => Raise e
    | None =>
        Ret ([Paragraph title title_style; Spacer 1 (PrimFloat.mul 0.2 inch)]
             ++ concat (map (pdf_block b64decode image_size) (blocks_of content)))
    end.
Proof.
  unfold pdf_story, pdf_texts, make_paragraph. simpl first_error.
  destruct (paragraph_error title) as [e|]; [done|]. apply pdf_fold.
Qed.

Lemma first_error_none (texts : list string) :
  first_error paragraph_error texts = None
  <-> forall t, t ∈ texts -> paragraph_error t = None.
Proof.
  induction texts as [|t ts IH]; simpl.
  - split; [|done]. intros _ t Ht. by apply elem_of_nil in Ht.
  - destruct (paragraph_error t) as [e|] eqn:E.
    + split; [done|]. intros H. rewrite <- E. apply H. by left.
    + rewrite IH. split.
      * intros H u Hu. apply elem_of_cons in Hu as [->|Hu]; [done|by apply H].
      * intros H u Hu. apply H. by right.
Qed.

Lemma first_error_some (texts : list string) (e : string) :
  first_error paragraph_error texts = Some e ->
  exists t, t ∈ texts /\ paragraph_error t = Some e.
Proof.
  induction texts as [|t ts IH]; simpl; [done|].
  destruct (paragraph_error t) as [e'|] eqn:E.
  - intros [= ->]. exists t. split; [by left|done].
  - intros H. destruct (IH H) as (u & Hu & Hue). exists u. split; [by right|done].
Qed.

Variable build_pdf : list flowable -> outcome (list Byte.byte).

(** C6: the HTML text is the shell around what each block adds, and a block
    whose content is not blank adds that content unchanged between the
    h1, h2, h3 or p tags of its type; the Markdown text is built from the
    text field instead, passed through [_clean_html], which removes the
    tags, replaces the four entities and nothing else, and strips; the PDF
    is built by ReportLab from the title and, for each block that is not a
    graph block and whose text is not blank, a paragraph of that cleaned
    text, when ReportLab can read the title and all these texts as paragraph
    markup, and the export raises with the first one it cannot read; the
    text of a graph block is never handed to a paragraph. *)
Theorem export_html_raw_others_cleaned
    (content : gmap string (list (gmap string string))) (title : string) :
  export_to_html content title
  = shell_head title +:+ join (map html_block (blocks_of content)) +:+ shell_tail /\
  export_to_markdown content = join (map md_block (blocks_of content)) /\
  pdf_story b64decode image_size paragraph_error content title
  = match first_error paragraph_error (pdf_texts content title) with
    | Some e => Raise e
    | None =>
        Ret ([Paragraph title title_style; Spacer 1 (PrimFloat.mul 0.2 inch)]
             ++ concat (map (pdf_block b64decode image_size) (blocks_of content)))
    end /\
  export_to_pdf b64decode image_size paragraph_error build_pdf content title
  = match first_error paragraph_error (pdf_texts content title) with
    | Some e => Raise e
    | None =>
        build_pdf
          ([Paragraph title title_style; Spacer 1 (PrimFloat.mul 0.2 inch)]
           ++ concat (map (pdf_block b64decode image_size) (blocks_of content)))
    end /\
  (forall block,
     (blank_content block = false ->
      html_block block
      = "    <" +:+ html_tag (block_type block) +:+ ">" +:+ block_content block
        +:+ "</" +:+ html_tag (block_type block) +:+ ">" +:+ nl) /\
     html_tag (block_type block) ∈ ["h1"; "h2"; "h3"; "p"] /\
     (blank_text block = false ->
      md_block block
      = md_prefix (block_type block) +:+ clean_html (strip (block_text block))
        +:+ nl +:+ nl) /\
     (blank_text block = false -> block_type block <> "graph" ->
      pdf_text block = Some (clean_html (strip (block_text block))) /\
      pdf_block b64decode image_size block
      = [ Paragraph (clean_html (strip (block_text block)))
                    (pdf_style (block_type block));
          Spacer 1 (PrimFloat.mul 0.1 inch) ]) /\
     (block_type block = "graph" ->
      pdf_text block = None /\
      forall text st, Paragraph text st ∉ pdf_block b64decode image_size block)) /\
  (forall s,
     clean_html s
     = strip (replace "&amp;" "&" (replace "&gt;" ">" (replace "&lt;" "<"
                (replace "&nbsp;" " " (sub_tags false s))))) /\
     (has_char lt_char s = false ->
      (forall e, e ∈ entities -> contains e s = false) ->
      clean_html s = strip s)).
Proof.
  split; [|split; [|split; [|split; [|split]]]].
  - unfold export_to_html. simpl.
    rewrite join_app, html_fold. simpl join at 1 3.
    by rewrite !string_app_nil_r, string_app_assoc.
  - unfold export_to_markdown. by rewrite markdown_fold.
  - apply pdf_story_spec.
  - unfold export_to_pdf. rewrite pdf_story_spec.
    by destruct (first_error paragraph_error (pdf_texts content title)).
  - intros block. split; [|split; [|split; [|split]]].
    + unfold html_block. by intros ->.
    + unfold html_tag, by_type.
      destruct (String.eqb (block_type block) "h1"),
               (String.eqb (block_type block) "h2"),
               (String.eqb (block_type block) "h3");
        apply list_elem_of_In; simpl; tauto.
    + apply md_block_nonblank.
    + intros Hnb Hg. unfold pdf_text, pdf_block. rewrite Hnb.
      apply String.eqb_neq in Hg. by rewrite Hg.
    + apply pdf_block_graph.
  - intros s. split; [reflexivity|apply clean_html_plain].
Qed.

End WithImaging.

(** A graph block with the text [caption]: Markdown renders the text, the
    PDF story and the PDF hold nothing of it. *)
Lemma graph_text_not_in_pdf :
  md_block sample_graph = "caption" +:+ nl +:+ nl /\
  pdf_story sample_b64decode sample_image_size sample_paragraph_error
    (<["blocks" := [sample_graph]]> ∅) "Notes"
  = Ret [Paragraph "Notes" title_style; Spacer 1 (PrimFloat.mul 0.2 inch)] /\
  export_to_pdf sample_b64decode sample_image_size sample_paragraph_error
    sample_build (<["blocks" := [sample_graph]]> ∅) "Notes"
  = Ret (list_byte_of_string ("Notes" +:+ nl)).
Proof. repeat split; vm_compute; reflexivity. Qed.

Lemma export_to_markdown_blocks_witness :
  export_to_markdown sample_content = "## Q&A" +:+ nl +:+ nl /\
  md_block sample_blank = "".
Proof.
  destruct (export_to_markdown_blocks sample_content) as [Hall Hblock].
  split.
  - rewrite Hall. reflexivity.
  - apply (Hblock sample_blank). reflexivity.
Defined.

Lemma export_html_raw_others_cleaned_witness :
  html_block sample_heading = "    <h2><b>Q&amp;A</b></h2>" +:+ nl /\
  md_block sample_heading = "## Q&A" +:+ nl +:+ nl /\
  pdf_block sample_b64decode sample_image_size sample_heading
  = [Paragraph "Q&A" CustomH2; Spacer 1 (PrimFloat.mul 0.1 inch)] /\
  export_to_pdf sample_b64decode sample_image_size sample_paragraph_error
    sample_build sample_content "Notes"
  = Ret (list_byte_of_string ("Notes" +:+ nl +:+ "Q&A" +:+ nl)) /\
  export_to_pdf sample_b64decode sample_image_size sample_paragraph_error
    sample_build sample_content "<Notes"
  = Raise "paragraph text has markup".
Proof.
  destruct (export_html_raw_others_cleaned sample_b64decode sample_image_size
              sample_paragraph_error sample_build sample_content "Notes")
    as (_ & _ & _ & Hpdf & Hblock & _).
  destruct (export_html_raw_others_cleaned sample_b64decode sample_image_size
              sample_paragraph_error sample_build sample_content "<Notes")
    as (_ & _ & _ & Hbad & _).
  destruct (Hblock sample_heading) as (Hhtml & _ & Hmd & Hblk & _).
  split; [|split; [|split; [|split]]].
  - rewrite Hhtml; reflexivity.
  - rewrite Hmd; reflexivity.
  - destruct Hblk as [_ Hb]; [reflexivity|discriminate|]. rewrite Hb. reflexivity.
  - rewrite Hpdf. vm_compute. reflexivity.
  - rewrite Hbad. vm_compute. reflexivity.
Defined.

End ExportProofs.

(* ===================================================================== *)
(** * Further properties of the services *)
(* ===================================================================== *)

(** ** Stripping *)

Module StripFacts.

Lemma lstrip_fixed (s : string) :
  match s with String c _ => is_space c = false | EmptyString => True end ->
  lstrip s = s.
Proof. destruct s as [|c r]; simpl; [done|]. by intros ->. Qed.

Lemma lstrip_clean (s : string) :
  match lstrip s with String c _ => is_space c = false | EmptyString => True end.
Proof.
  destruct (lstrip s) as [|c r] eqn:E; [done|].
  by apply ExportProofs.lstrip_head in E.
Qed.

Lemma rstrip_keeps_head (s : string) :
  match s with String c _ => is_space c = false | EmptyString => True end ->
  match rstrip s with String c _ => is_space c = false | EmptyString => True end.
Proof.
  destruct s as [|c r]; simpl; [done|]. intros Hc.
  destruct (rstrip r); by rewrite ?Hc.
Qed.

Lemma rstrip_idem (s : string) : rstrip (rstrip s) = rstrip s.
Proof.
  induction s as [|c r IH]; simpl; [done|].
  destruct (rstrip r) as [|d t] eqn:E.
  - destruct (is_space c) eqn:Hc; simpl; [done|]. by rewrite Hc.
  - change (rstrip (String c (String d t))) with
      (match rstrip (String d t) with
       | EmptyString => if is_space c then EmptyString else String c EmptyString
       | r' => String c r'
       end).
    by rewrite IH.
Qed.

Lemma strip_idem (s : string) : strip (strip s) = strip s.
Proof.
  unfold strip.
  rewrite (lstrip_fixed (rstrip (lstrip s))).
  - apply rstrip_idem.
  - apply rstrip_keeps_head, lstrip_clean.
Qed.

Lemma lstrip_length (s : string) : String.length (lstrip s) <= String.length s.
Proof.
  induction s as [|c r IH]; simpl; [done|].
  destruct (is_space c); simpl; lia.
Qed.

Lemma rstrip_length (s : string) : String.length (rstrip s) <= String.length s.
Proof.
  induction s as [|c r IH]; simpl; [done|].
  destruct (rstrip r) as [|d t]; [destruct (is_space c)|]; simpl in *; lia.
Qed.

Lemma strip_length (s : string) : String.length (strip s) <= String.length s.
Proof.
  unfold strip. pose proof (rstrip_length (lstrip s)). pose proof (lstrip_length s).
  lia.
Qed.

End StripFacts.

(** ** graph_service.py *)

Module GraphFacts.
Import GraphService.

Lemma palette_lookup (j : nat) :
  j < 5 -> palette !! j = Some (nth j palette "").
Proof. intros H. do 5 (destruct j as [|j]; [reflexivity|]). lia. Qed.

Lemma filter_none {A : Type} (P : A -> Prop) `{!forall x, Decision (P x)}
    (l : list A) :
  (forall x, x ∈ l -> ~ P x) -> filter P l = [].
Proof.
  induction l as [|a l IH]; intros Hall; [done|].
  rewrite filter_cons_False by (apply Hall; left).
  apply IH. intros x Hx. apply Hall. by right.
Qed.

Lemma tokens_filter (raw : string) :
  filter (fun t => t <> "") (tokens raw)
  = map strip (filter (fun v => truthy (strip v) = true) (split_char comma raw)).
Proof.
  unfold tokens. induction (split_char comma raw) as [|v l IH]; [done|].
  simpl map. destruct (strip v) as [|c r] eqn:E.
  - rewrite filter_cons_False by (intros H; by apply H).
    rewrite filter_cons_False by (rewrite E; done). exact IH.
  - rewrite filter_cons_True by done.
    rewrite filter_cons_True by (rewrite E; done).
    simpl map. rewrite E. by f_equal.
Qed.

Section WithFloat.

Variable py_float : string -> option float.

(** X1: the background colour of a pie chart is a list with one colour per
    label (and per data point), the colour at index [i] being entry
    [i mod 5] of the palette; every other chart type gets the single first
    colour of the palette. *)
Theorem chart_colors (data : gmap string string) :
  let c := process_chart_data py_float data in
  exists d, ch_datasets c = [d] /\
    (data !! "type" = Some "pie" ->
     exists cs, ds_backgroundColor d = ColorList cs /\
       length cs = length (ch_labels c) /\ length cs = length (ds_data d) /\
       forall i, i < length cs -> cs !! i = palette !! (i mod 5)) /\
    (data !! "type" <> Some "pie" ->
     ds_backgroundColor d = OneColor "rgba(13, 148, 136, 0.7)").
Proof.
  intros c.
  destruct (GraphProofs.process_sequences py_float data) as [Hl Hv].
  fold c in Hl, Hv.
  eexists. split; [reflexivity|]. split.
  - intros Hty. cbn [ds_backgroundColor ds_data]. rewrite Hty. simpl default.
    unfold get_colors. simpl String.eqb. cbv iota.
    eexists. split; [reflexivity|].
    assert (Hlen : forall n, length (map (fun i => nth (i mod length palette) palette "")
                                    (seq 0 n)) = n)
      by (intros n; by rewrite length_map, length_seq).
    rewrite Hlen. split; [|split; [done|]].
    + rewrite Hl. unfold chart_data in Hv. simpl in Hv.
      rewrite Hv at 1. rewrite !length_app, !repeat_length. lia.
    + intros i Hi.
      change (map ?f ?l) with (f <$> l). rewrite list_lookup_fmap.
      rewrite lookup_seq_lt by done. simpl.
      symmetry. apply palette_lookup.
      apply (Nat.mod_upper_bound i 5). lia.
  - intros Hty. cbn [ds_backgroundColor]. unfold get_colors.
    destruct (data !! "type") as [ty|] eqn:E; simpl default.
    + destruct (String.eqb_spec ty "pie") as [->|]; [done|reflexivity].
    + reflexivity.
Qed.

(** X2: every label [process_chart_data] returns is the placeholder
    [Label] or one of the comma-separated tokens of the labels string, not
    empty and without whitespace at either end. *)
Theorem chart_labels_clean (data : gmap string string) (l : string) :
  l ∈ ch_labels (process_chart_data py_float data) ->
  l = "Label" \/
  (l <> "" /\ strip l = l /\ l ∈ tokens (default "" (data !! "labels"))).
Proof.
  destruct (GraphProofs.process_sequences py_float data) as [Hl _].
  rewrite Hl. clear Hl. intros Hin. apply elem_of_app in Hin as [Hin|Hin].
  - right. unfold comp_labels in Hin.
    apply list_elem_of_In, in_map_iff in Hin as (v & <- & Hv).
    apply list_elem_of_In, list_elem_of_filter in Hv as [Ht Hv].
    split; [|split].
    + intros E. by rewrite E in Ht.
    + apply StripFacts.strip_idem.
    + unfold tokens. apply list_elem_of_In, in_map, list_elem_of_In, Hv.
  - left. apply list_elem_of_In in Hin. by apply repeat_spec in Hin.
Qed.

(** X3: when the labels string and the values string hold nothing but
    commas and whitespace (or are missing), the chart is empty: no labels,
    no data, and all four statistics are the int 0. *)
Theorem chart_of_blank_input (data : gmap string string) :
  (forall t, t ∈ tokens (default "" (data !! "labels")) -> t = "") ->
  (forall t, t ∈ tokens (default "" (data !! "values")) -> t = "") ->
  let c := process_chart_data py_float data in
  ch_labels c = [] /\ chart_data c = [] /\
  ch_stats c = Stats (PyInt 0) (PyInt 0) (PyInt 0) (PyInt 0).
Proof.
  intros Hl Hv c.
  assert (Hnone : forall raw, (forall t, t ∈ tokens raw -> t = "") ->
            filter (fun v => truthy (strip v) = true) (split_char comma raw) = []).
  { intros raw H. apply filter_none. intros v Hin Ht.
    rewrite (H (strip v)) in Ht; [done|].
    unfold tokens. apply list_elem_of_In, in_map, list_elem_of_In, Hin. }
  unfold c, process_chart_data, chart_data, comp_labels, comp_values.
  rewrite (Hnone _ Hl), (Hnone _ Hv). done.
Qed.

(** X4: when [float] accepts every non-blank token of the values string,
    no value is dropped or reordered: the data array starts with the floats
    of those tokens in their order, followed only by the 0 padding. *)
Theorem chart_keeps_numeric_values (data : gmap string string) (fs : list float) :
  Forall2 (fun t f => py_float t = Some f)
          (filter (fun t => t <> "") (tokens (default "" (data !! "values")))) fs ->
  let c := process_chart_data py_float data in
  parsed_values py_float (default "" (data !! "values")) = map PyFloat fs /\
  chart_data c
  = map PyFloat fs
    ++ repeat (PyInt 0)
         (length (comp_labels (default "" (data !! "labels"))) - length fs).
Proof.
  intros H c.
  assert (Hp : parsed_values py_float (default "" (data !! "values"))
               = map PyFloat fs).
  { unfold parsed_values, comp_values. rewrite tokens_filter in H.
    rewrite (mapM_Some_2 _ _ (map PyFloat fs)); [done|].
    revert H. generalize (filter (fun v => truthy (strip v) = true)
                            (split_char comma (default "" (data !! "values")))).
    intros l H. remember (map strip l) as ts eqn:Ets.
    revert l Ets. induction H as [|t f ts fs Hf _ IH]; intros l Ets.
    - destruct l; [constructor|done].
    - destruct l as [|v l]; [done|]. injection Ets as -> ->.
      simpl. constructor; [by rewrite Hf|by apply IH]. }
  split; [exact Hp|].
  destruct (GraphProofs.process_sequences py_float data) as [_ Hv].
  fold c in Hv. rewrite Hv, Hp, length_map. do 2 f_equal. lia.
Qed.

End WithFloat.

Lemma chart_colors_witness :
  exists cs,
    ds_backgroundColor
      <$> head (ch_datasets (process_chart_data decimal_float
                               (<["type" := "pie"]> sample_pad)))
    = Some (ColorList cs) /\
    length cs = 3.
Proof.
  destruct (chart_colors decimal_float (<["type" := "pie"]> sample_pad))
    as (d & Hd & Hpie & _).
  destruct (Hpie eq_refl) as (cs & Hcs & Hlen & _).
  exists cs. rewrite Hd. simpl. rewrite Hcs. split; [reflexivity|].
  rewrite Hlen. reflexivity.
Defined.

Lemma chart_labels_clean_witness :
  "a" = "Label" \/
  ("a" <> "" /\ strip "a" = "a" /\ "a" ∈ tokens "a,b").
Proof.
  apply (chart_labels_clean decimal_float sample_pad "a").
  apply list_elem_of_In. vm_compute. tauto.
Defined.

Lemma chart_of_blank_input_witness :
  ch_labels (process_chart_data decimal_float (<["labels" := " , ,"]> ∅)) = [] /\
  chart_data (process_chart_data decimal_float (<["labels" := " , ,"]> ∅)) = [] /\
  ch_stats (process_chart_data decimal_float (<["labels" := " , ,"]> ∅))
  = Stats (PyInt 0) (PyInt 0) (PyInt 0) (PyInt 0).
Proof.
  apply (chart_of_blank_input decimal_float (<["labels" := " , ,"]> ∅)).
  - intros t Ht. apply list_elem_of_In in Ht. vm_compute in Ht.
    intuition congruence.
  - intros t Ht. apply list_elem_of_In in Ht. vm_compute in Ht.
    intuition congruence.
Defined.

Lemma chart_keeps_numeric_values_witness :
  chart_data (process_chart_data decimal_float sample_short)
  = [PyFloat 5; PyInt 0].
Proof.
  apply (chart_keeps_numeric_values decimal_float sample_short [5%float]).
  vm_compute. repeat constructor.
Defined.

End GraphFacts.

(** ** csv_service.py and the import endpoint *)

Module CSVFacts.
Import CSVService CSVValidate.

Lemma clean_cell_present (c : cell) : isna (clean_cell c) = false.
Proof. unfold clean_cell. by destruct (isna c) eqn:E. Qed.

Lemma record_fold_keys (columns : list string) (row : list cell)
    (m : gmap string cell) (k : string) :
  length row = length columns ->
  is_Some (fold_left (fun m kv => <[kv.1 := kv.2]> m) (zip columns row) m !! k)
  <-> k ∈ columns \/ is_Some (m !! k).
Proof.
  revert row m. induction columns as [|c cs IH]; intros row m Hlen.
  - simpl. split; [by right|]. intros [H|H]; [by apply elem_of_nil in H|done].
  - destruct row as [|x xs]; [done|]. simpl in *.
    rewrite IH by lia. rewrite elem_of_cons.
    destruct (decide (k = c)) as [->|Hne].
    + rewrite lookup_insert_eq. split; [by left; left|by right].
    + rewrite lookup_insert_ne by done. tauto.
Qed.



Section WithPandas.

Variable read_csv : list Byte.byte -> outcome DataFrame.
Variable read_csv_nrows : list Byte.byte -> nat -> outcome DataFrame.
Variable to_csv : DataFrame -> outcome string.

(** X5: in a successful import no cell of any returned row is missing or
    NaN, and [rowCount] and [columnCount] are the numbers of returned rows
    and columns. *)
Theorem import_has_no_missing_cell (b : list Byte.byte) (columns : list string)
    (rows : list (gmap string cell)) (rowCount columnCount : nat) :
  import_csv read_csv b = ImportOk columns rows rowCount columnCount ->
  rowCount = length rows /\ columnCount = length columns /\
  forall row k c, row ∈ rows -> row !! k = Some c -> isna c = false.
Proof.
  unfold import_csv. destruct (read_csv b) as [df|e]; [|done].
  intros [= <- <- <- <-]. split; [done|]. split; [done|].
  intros row k c Hrow Hk.
  apply list_elem_of_In, in_map_iff in Hrow as (r & <- & _).
  rewrite lookup_fmap in Hk.
  destruct (r !! k) as [c0|]; [|done]. injection Hk as <-.
  apply clean_cell_present.
Qed.

(** X6: in a successful import of a table with one cell per column in each
    row, the keys of every returned row are exactly the returned columns. *)
Theorem import_rows_have_the_columns (b : list Byte.byte)
    (columns : list string) (rows : list (gmap string cell))
    (rowCount columnCount : nat) :
  import_csv read_csv b = ImportOk columns rows rowCount columnCount ->
  (forall df, read_csv b = Ret df -> wf_frame df) ->
  forall row k, row ∈ rows -> (is_Some (row !! k) <-> k ∈ columns).
Proof.
  unfold import_csv. destruct (read_csv b) as [df|e] eqn:Hread; [|done].
  intros [= <- <- <- <-] Hwf row k Hrow.
  destruct (Hwf df eq_refl) as [_ Hlen].
  apply list_elem_of_In, in_map_iff in Hrow as (r & <- & Hr).
  unfold to_dict_records in Hr. apply in_map_iff in Hr as (cells & <- & Hcells).
  rewrite Forall_forall in Hlen.
  specialize (Hlen cells (proj2 (list_elem_of_In _ _) Hcells)).
  rewrite lookup_fmap, fmap_is_Some. unfold record_of.
  rewrite record_fold_keys by done. rewrite lookup_empty.
  split; [intros [H|H]; [done|by destruct H]|by left].
Qed.


(** X8: [validate_csv] calls a file valid only if [import_csv] imports it,
    and then its estimated row count is the import's row count; a file
    [import_csv] rejects is never valid. *)
Theorem validate_agrees_with_import (b : list Byte.byte) :
  (forall columns preview n,
     validate_csv read_csv read_csv_nrows b = Valid columns preview n ->
     exists columns' rows,
       import_csv read_csv b = ImportOk columns' rows n (length columns')) /\
  (forall e, import_csv read_csv b = ImportFail e ->
     exists e', validate_csv read_csv read_csv_nrows b = Invalid e').
Proof.
  unfold validate_csv, import_csv. split.
  - intros columns preview n.
    destruct (read_csv_nrows b 5) as [df|e]; [|done].
    destruct (read_csv b) as [full|e]; [|done].
    intros [= <- <- <-]. do 2 eexists. f_equal.
    unfold to_dict_records. by rewrite !length_map.
  - intros e. destruct (read_csv b) as [full|e0]; [done|]. intros _.
    destruct (read_csv_nrows b 5); by eauto.
Qed.

Variable jsonify_error : import_result -> option string.

(** X9: the import endpoint answers with the status 400 only when the
    request has no [file] part or the part has an empty file name, and with
    the status 500 only when reading the request's files, reading the file
    or serialising the result raised, the error being the message of that
    exception; it answers with no other error status; a file pandas cannot
    parse is answered with the service's failure result as JSON, not with an
    error status. *)
Theorem import_endpoint_statuses (files : outcome (gmap string upload)) :
  (forall e st,
     import_csv_endpoint read_csv jsonify_error files = ImportError e st ->
     (st = 400%Z /\
      exists fs, files = Ret fs /\
        ((fs !! "file" = None /\ e = "No file provided") \/
         (exists f, fs !! "file" = Some f /\ filename f = ""
                    /\ e = "No file selected"))) \/
     (st = 500%Z /\
      (files = Raise e \/
       exists fs f, files = Ret fs /\ fs !! "file" = Some f /\ filename f <> "" /\
         (read f = Raise e \/
          exists b, read f = Ret b /\
                    jsonify_error (import_csv read_csv b) = Some e)))) /\
  (forall fs f b e,
     files = Ret fs -> fs !! "file" = Some f -> filename f <> "" ->
     read f = Ret b -> read_csv b = Raise e ->
     jsonify_error (ImportFail e) = None ->
     import_csv_endpoint read_csv jsonify_error files = ImportJson (ImportFail e)) /\
  (forall fs f e,
     files = Raise e \/
     (files = Ret fs /\ fs !! "file" = Some f /\ filename f <> "" /\ read f = Raise e) ->
     import_csv_endpoint read_csv jsonify_error files = ImportError e 500).
Proof.
  unfold import_csv_endpoint. split; [|split].
  - intros e st. destruct files as [fs|e0].
    + destruct (fs !! "file") as [f|] eqn:Hf.
      * destruct (String.eqb_spec (filename f) "") as [Hn|Hn].
        { intros [= <- <-]. left. split; [done|]. exists fs. split; [done|].
          right. by exists f. }
        destruct (read f) as [b|e1] eqn:Hr.
        { destruct (jsonify_error (import_csv read_csv b)) as [e2|] eqn:Hj; [|done].
          intros [= <- <-]. right. split; [done|]. right. exists fs, f.
          repeat split; try done. right. by exists b. }
        intros [= <- <-]. right. split; [done|]. right. exists fs, f.
        repeat split; try done. by left.
      * intros [= <- <-]. left. split; [done|]. exists fs. split; [done|].
        by left.
    + intros [= <- <-]. right. split; [done|]. by left.
  - intros fs f b e -> -> Hname Hread Hcsv Hj.
    destruct (String.eqb_spec (filename f) ""); [done|].
    rewrite Hread. unfold import_csv. rewrite Hcsv. cbv zeta. by rewrite Hj.
  - intros fs f e [->|(-> & -> & Hname & ->)]; [done|].
    by destruct (String.eqb_spec (filename f) "").
Qed.

End WithPandas.

Lemma import_has_no_missing_cell_witness :
  isna (CStr "") = false.
Proof.
  destruct (import_has_no_missing_cell sample_read_csv sample_csv
              ["a"; "b"]
              [clean_cell <$> record_of ["a"; "b"] [CInt 1; nan_cell]] 1 2
              eq_refl) as (_ & _ & H).
  apply (H (clean_cell <$> record_of ["a"; "b"] [CInt 1; nan_cell]) "b").
  - left.
  - reflexivity.
Defined.

Lemma import_rows_have_the_columns_witness :
  is_Some ((clean_cell <$> record_of ["a"; "b"] [CInt 1; nan_cell]) !! "b")
  <-> "b" ∈ ["a"; "b"].
Proof.
  apply (import_rows_have_the_columns sample_read_csv sample_csv
           ["a"; "b"]
           [clean_cell <$> record_of ["a"; "b"] [CInt 1; nan_cell]] 1 2
           eq_refl).
  - intros df Hdf. injection Hdf as <-. exact CSVProofs.sample_frame_wf.
  - left.
Defined.


Lemma validate_agrees_with_import_witness :
  exists columns rows,
    import_csv sample_read_csv sample_csv = ImportOk columns rows 1 (length columns).
Proof.
  apply (validate_agrees_with_import sample_read_csv sample_read_csv_nrows
           sample_csv) with (columns := ["a"; "b"])
           (preview := to_dict_records sample_frame).
  reflexivity.
Defined.

Lemma import_endpoint_statuses_witness :
  import_csv_endpoint sample_read_csv sample_jsonify_error (Ret sample_bad_files)
  = ImportJson (ImportFail "No columns to parse from file") /\
  import_csv_endpoint sample_read_csv sample_jsonify_error (Ret sample_lost_files)
  = ImportError "client disconnected" 500.
Proof.
  split.
  - destruct (import_endpoint_statuses sample_read_csv sample_jsonify_error
                (Ret sample_bad_files)) as (_ & H & _).
    apply (H sample_bad_files (Upload "broken.csv" (Ret [])) []);
      [reflexivity|reflexivity|discriminate|reflexivity|reflexivity|reflexivity].
  - destruct (import_endpoint_statuses sample_read_csv sample_jsonify_error
                (Ret sample_lost_files)) as (_ & _ & H).
    apply (H sample_lost_files (Upload "table.csv" (Raise "client disconnected"))).
    right. repeat split. discriminate.
Defined.

End CSVFacts.

(** ** export_service.py *)

Module ExportFacts.
Import ExportService PdfLayout CanvasExport.

Lemma has_char_app (c : ascii) (a b : string) :
  has_char c (a +:+ b) = has_char c a || has_char c b.
Proof.
  induction a as [|x a IH]; [done|].
  change (has_char c (String x (a +:+ b))
          = has_char c (String x a) || has_char c b).
  simpl. by rewrite IH, orb_assoc.
Qed.

Lemma string_length_app (a b : string) :
  String.length (a +:+ b) = String.length a + String.length b.
Proof.
  induction a as [|x a IH]; [done|].
  change (S (String.length (a +:+ b)) = S (String.length a) + String.length b).
  by rewrite IH.
Qed.

Lemma prefix_length (p s : string) :
  String.prefix p s = true -> String.length p <= String.length s.
Proof.
  revert s. induction p as [|c p IH]; intros s; [simpl; lia|].
  destruct s as [|d s]; simpl; [done|]. destruct (ascii_dec c d); [|done].
  intros H. apply IH in H. lia.
Qed.

Lemma replace_aux_length (old new : string) (skip : nat) (s : string) :
  String.length new <= String.length old -> skip <= String.length s ->
  String.length (replace_aux old new skip s) + skip <= String.length s.
Proof.
  intros Hnew. revert skip. induction s as [|c r IH]; intros skip Hskip.
  - simpl in *. lia.
  - destruct skip as [|k].
    + cbn [replace_aux].
      destruct (String.prefix old (String c r)) eqn:Hp.
      * apply prefix_length in Hp. simpl in Hp.
        rewrite string_length_app.
        assert (String.length old - 1 <= String.length r) as Hk by lia.
        specialize (IH _ Hk). simpl. lia.
      * specialize (IH 0 ltac:(lia)). simpl. lia.
    + cbn [replace_aux]. simpl in Hskip.
      specialize (IH k ltac:(lia)). simpl. lia.
Qed.

Lemma replace_length (old new s : string) :
  String.length new <= String.length old ->
  String.length (replace old new s) <= String.length s.
Proof.
  intros H. pose proof (replace_aux_length old new 0 s H ltac:(lia)).
  unfold replace. lia.
Qed.

Lemma sub_tags_length (inside : bool) (s : string) :
  String.length (sub_tags inside s) <= String.length s.
Proof.
  revert inside. induction s as [|c r IH]; intros inside; simpl; [done|].
  destruct inside.
  - destruct (Ascii.eqb c gt_char); [specialize (IH false)|specialize (IH true)]; lia.
  - destruct (Ascii.eqb c lt_char && opens_tag r);
      [specialize (IH true)|specialize (IH false)]; simpl; lia.
Qed.

Lemma well_spaced_app (a b : list flowable) :
  well_spaced a = true -> well_spaced (a ++ b) = well_spaced b.
Proof.
  remember (length a) as n eqn:Hn. revert a Hn.
  induction n as [n IH] using lt_wf_ind. intros a Hn Ha.
  destruct a as [|f [|g a]]; [done|done|].
  simpl in Ha. apply andb_true_iff in Ha as [Hfg Ha].
  change (well_spaced ((f :: g :: a) ++ b))
    with (negb (is_spacer f) && is_spacer g && well_spaced (a ++ b)).
  rewrite Hfg. simpl. apply (IH (length a)); [simpl in Hn; lia|done|done].
Qed.

Lemma well_spaced_concat (ls : list (list flowable)) :
  Forall (fun l => well_spaced l = true) ls -> well_spaced (concat ls) = true.
Proof.
  induction 1 as [|l ls Hl _ IH]; [done|].
  simpl. by rewrite well_spaced_app.
Qed.

Lemma well_spaced_even (story : list flowable) :
  well_spaced story = true -> Nat.even (length story) = true.
Proof.
  remember (length story) as n eqn:Hn. revert story Hn.
  induction n as [n IH] using lt_wf_ind. intros story Hn H.
  destruct story as [|f [|g story]]; [by subst|done|].
  simpl in H. apply andb_true_iff in H as [_ H].
  subst n. simpl. apply (IH (length story) ltac:(simpl; lia) story eq_refl H).
Qed.

Section WithImaging.

Variable b64decode : string -> outcome (list Byte.byte).
Variable image_size : list Byte.byte -> outcome (Z * Z).

Lemma graph_flowables_spaced (img_data : string) (fs : list flowable) :
  graph_flowables b64decode image_size img_data = Ret fs ->
  well_spaced fs = true /\ forall text st, Paragraph text st ∉ fs.
Proof.
  unfold graph_flowables.
  destruct (b64decode _) as [bytes|e]; [|done].
  destruct (image_size bytes) as [[w h]|e]; [|done].
  destruct (w =? 0)%Z; [done|]. intros [= <-]. split; [done|].
  intros text st Hin. apply list_elem_of_In in Hin. simpl in Hin.
  intuition discriminate.
Qed.

Lemma pdf_block_spaced (block : gmap string string) :
  well_spaced (pdf_block b64decode image_size block) = true.
Proof.
  unfold pdf_block.
  destruct (String.eqb (block_type block) "graph").
  - destruct (truthy (block_content block)); [|done].
    destruct (graph_flowables _ _ _) as [fs|e] eqn:E; [|done].
    by apply graph_flowables_spaced in E as [? _].
  - by destruct (blank_text block).
Qed.

Variable paragraph_error : string -> option string.

(** X12: [export_to_pdf] builds a story whenever ReportLab can read the
    title and the cleaned text of every block that is not a graph block and
    not blank, and raises only with the message of one of these texts that
    it cannot read; in every story it builds each paragraph or image is
    directly followed by a spacer and nothing else follows or precedes a
    spacer, the story opens with the title paragraph and has an even number
    of flowables. *)
Theorem pdf_story_well_spaced
    (content : gmap string (list (gmap string string))) (title : string) :
  (forall story,
     pdf_story b64decode image_size paragraph_error content title = Ret story ->
     well_spaced story = true /\
     head story = Some (Paragraph title title_style) /\
     Nat.even (length story) = true) /\
  ((forall t, t ∈ pdf_texts content title -> paragraph_error t = None) ->
   exists story,
     pdf_story b64decode image_size paragraph_error content title = Ret story) /\
  (forall e,
     pdf_story b64decode image_size paragraph_error content title = Raise e ->
     exists t, t ∈ pdf_texts content title /\ paragraph_error t = Some e).
Proof.
  rewrite ExportProofs.pdf_story_spec. split; [|split].
  - intros story.
    destruct (first_error paragraph_error (pdf_texts content title)); [done|].
    intros [= <-].
    assert (Hs : well_spaced
                   ([Paragraph title title_style; Spacer 1 (PrimFloat.mul 0.2 inch)]
                    ++ concat (map (pdf_block b64decode image_size)
                                   (blocks_of content))) = true).
    { rewrite well_spaced_app by done.
      apply well_spaced_concat, Forall_forall. intros l Hin.
      apply list_elem_of_In, in_map_iff in Hin as (b & <- & _).
      apply pdf_block_spaced. }
    split; [exact Hs|]. split; [done|by apply well_spaced_even].
  - intros Hall. apply ExportProofs.first_error_none in Hall. rewrite Hall.
    by eexists.
  - intros e.
    destruct (first_error paragraph_error (pdf_texts content title)) as [e'|] eqn:E;
      [|done].
    intros [= <-]. by apply ExportProofs.first_error_some.
Qed.

Variable build_pdf : list flowable -> outcome (list Byte.byte).


End WithImaging.

Section WithCanvas.

Variable b64decode : string -> outcome (list Byte.byte).
Variable save_as_png : list Byte.byte -> outcome (list Byte.byte).

(** X10: [export_canvas_to_png] decodes only the piece of its input between
    the first and the second comma when there is a comma, so a data-URL
    prefix and anything after a second comma make no difference; and every
    failure is raised with a message that starts with
    [Failed to export canvas: ]. *)
Theorem canvas_decodes_second_piece (prefix payload rest : string) :
  has_char comma prefix = false -> has_char comma payload = false ->
  export_canvas_to_png b64decode save_as_png (prefix +:+ "," +:+ payload)
  = export_canvas_to_png b64decode save_as_png payload /\
  export_canvas_to_png b64decode save_as_png
    (prefix +:+ "," +:+ payload +:+ "," +:+ rest)
  = export_canvas_to_png b64decode save_as_png payload /\
  (forall data msg,
     export_canvas_to_png b64decode save_as_png data = Raise msg ->
     exists e, msg = "Failed to export canvas: " +:+ e).
Proof.
  intros Hp Hq.
  assert (Hplain : canvas_png b64decode save_as_png payload
                   = match b64decode payload with
                     | Raise e => Raise e
                     | Ret image_bytes => save_as_png image_bytes
                     end)
    by (unfold canvas_png; by rewrite Hq).
  assert (Hsplit : forall tail,
            (exists r, split_char comma tail = payload :: r) ->
            canvas_png b64decode save_as_png (prefix +:+ String comma tail)
            = canvas_png b64decode save_as_png payload).
  { intros tail [r Hr]. rewrite Hplain. unfold canvas_png.
    rewrite has_char_app.
    change (has_char comma (String comma tail)) with true.
    rewrite orb_true_r. cbv iota.
    rewrite (AuthProofs.split_char_scheme _ _ _ Hp), Hr. done. }
  unfold export_canvas_to_png. split; [|split].
  - change ("," +:+ payload) with (String comma payload).
    rewrite Hsplit; [done|].
    exists []. by apply AuthProofs.split_char_no_sep.
  - change ("," +:+ payload +:+ "," +:+ rest)
      with (String comma (payload +:+ String comma rest)).
    rewrite Hsplit; [done|].
    eexists. by apply AuthProofs.split_char_scheme.
  - intros data msg. destruct (canvas_png _ _ data) as [png|e]; [done|].
    intros [= <-]. by eauto.
Qed.

End WithCanvas.

(** X13: the Markdown of a document whose blocks are those of two documents
    one after the other is the two Markdown texts one after the other; a
    document without a [blocks] key, or whose blocks all have blank text,
    gives the empty text. *)
Theorem markdown_of_concatenation
    (content c1 c2 : gmap string (list (gmap string string))) :
  (blocks_of content = blocks_of c1 ++ blocks_of c2 ->
   export_to_markdown content = export_to_markdown c1 +:+ export_to_markdown c2) /\
  (content !! "blocks" = None -> export_to_markdown content = "") /\
  ((forall b, b ∈ blocks_of content -> blank_text b = true) ->
   export_to_markdown content = "").
Proof.
  unfold export_to_markdown. rewrite !ExportProofs.markdown_fold. simpl.
  split; [|split].
  - intros ->. by rewrite map_app, join_app.
  - unfold blocks_of. by intros ->.
  - intros H. induction (blocks_of content) as [|b bs IH]; [done|].
    simpl. unfold md_block at 1. rewrite (H b) by left.
    apply IH. intros b' Hb'. apply H. by right.
Qed.

(** X14: [_clean_html] never makes a text longer, and its result has no
    whitespace at either end (stripping it again changes nothing). *)
Theorem clean_html_shrinks_and_strips (s : string) :
  String.length (clean_html s) <= String.length s /\
  strip (clean_html s) = clean_html s.
Proof.
  unfold clean_html. split; [|apply StripFacts.strip_idem].
  etransitivity; [apply StripFacts.strip_length|].
  etransitivity; [apply replace_length; simpl; lia|].
  etransitivity; [apply replace_length; simpl; lia|].
  etransitivity; [apply replace_length; simpl; lia|].
  etransitivity; [apply replace_length; simpl; lia|].
  apply sub_tags_length.
Qed.

Lemma canvas_decodes_second_piece_witness :
  export_canvas_to_png sample_decode sample_save
    ("data:image/png;base64" +:+ "," +:+ "iVBORw0KGgo=")
  = Ret (list_byte_of_string "PNG").
Proof.
  transitivity (export_canvas_to_png sample_decode sample_save "iVBORw0KGgo=");
    [|reflexivity].
  apply (canvas_decodes_second_piece sample_decode sample_save
           "data:image/png;base64" "iVBORw0KGgo=" ""); reflexivity.
Defined.


Lemma pdf_story_well_spaced_witness :
  exists story,
    pdf_story sample_b64decode sample_image_size sample_paragraph_error
      sample_with_graph "Notes" = Ret story /\
    well_spaced story = true /\ length story = 6.
Proof.
  destruct (pdf_story_well_spaced sample_b64decode sample_image_size
              sample_paragraph_error sample_with_graph "Notes")
    as (Hshape & Hret & _).
  destruct Hret as [story Hstory].
  - intros t Ht. apply list_elem_of_In in Ht. simpl in Ht.
    destruct Ht as [<-|[<-|[<-|[]]]]; reflexivity.
  - exists story. split; [exact Hstory|].
    split; [apply (Hshape story Hstory)|].
    vm_compute in Hstory. injection Hstory as <-. reflexivity.
Defined.

Lemma markdown_of_concatenation_witness :
  export_to_markdown
    (<["blocks" := [sample_heading; sample_blank; sample_heading; sample_blank]]> ∅)
  = export_to_markdown sample_content +:+ export_to_markdown sample_content.
Proof.
  apply (markdown_of_concatenation
           (<["blocks" := [sample_heading; sample_blank;
                           sample_heading; sample_blank]]> ∅)
           sample_content sample_content).
  reflexivity.
Defined.

End ExportFacts.

(** ** auth_service.py and the account endpoints *)

Module SessionFacts.
Import AuthService Sessions.

Lemma profile_updates_lookup (data : gmap string pyval) (k : string) :
  profile_updates data !! k
  = if decide (k = "email") then data !! "email"
    else if decide (k = "photo_url") then data !! "photoURL"
    else if decide (k = "display_name") then data !! "displayName"
    else None.
Proof.
  unfold profile_updates.
  destruct (data !! "displayName") as [a|], (data !! "photoURL") as [b|],
           (data !! "email") as [c|];
    repeat case_decide; subst;
    repeat first [ rewrite lookup_insert_eq | rewrite lookup_insert_ne by done
                 | rewrite lookup_empty ];
    done.
Qed.

Lemma password_params (password : pyval) :
  password <> VNone ->
  update_params (<["password" := password]> ∅) = <["password" := password]> ∅.
Proof.
  intros Hp. unfold update_params.
  rewrite map_filter_insert_True, map_filter_empty; [done|].
  split; [|done]. apply list_elem_of_In. simpl. tauto.
Qed.

Lemma bearer_token (token : string) :
  has_char space token = false ->
  split_char space ("Bearer " +:+ token) !! 1%nat = Some token.
Proof.
  intros H. change ("Bearer " +:+ token) with ("Bearer" +:+ String space token).
  rewrite AuthProofs.split_char_scheme by done.
  by rewrite AuthProofs.split_char_no_sep.
Qed.

(** X15: a session token from [create_session_token] that PyJWT decodes
    back to the signed payload is accepted by [verify_session_token]; the
    claims carry the user id and the email it was issued for and expire
    seven days after issue; the endpoints read the user id back from them;
    and, the token holding no space and not being an identity token, the
    decorator runs the endpoint with exactly those claims. *)
Theorem issued_session_token_authenticates {R : Type}
    (fb_verify_id_token : string -> outcome (gmap string pyval))
    (jwt_encode : gmap string pyval -> string -> string)
    (jwt_decode : string -> string -> jwt_outcome)
    (getenv : string -> option string) (utcnow : Z)
    (f : request -> outcome R) (user_id email : pyval)
    (u : option (gmap string pyval)) :
  let payload := session_payload utcnow user_id email in
  let token := create_session_token jwt_encode getenv utcnow user_id email in
  let req := Request (Some ("Bearer " +:+ token)) u in
  jwt_decode token (secret_key getenv) = JwtPayload payload ->
  verify_session_token jwt_decode getenv token = Ret (Some payload) /\
  payload !! "user_id" = Some user_id /\ payload !! "email" = Some email /\
  payload !! "exp" = Some (VInt (utcnow + 604800)) /\
  current_uid payload = user_id /\
  (has_char space token = false ->
   verify_firebase_token fb_verify_id_token token = None ->
   require_auth fb_verify_id_token jwt_decode getenv f req
   = run_handler f req payload).
Proof.
  intros payload token req Hdec.
  assert (Hv : verify_session_token jwt_decode getenv token = Ret (Some payload))
    by (unfold verify_session_token; by rewrite Hdec).
  split; [exact Hv|].
  split; [apply lookup_insert_eq|].
  split; [unfold payload, session_payload;
          rewrite lookup_insert_ne by done; apply lookup_insert_eq|].
  split; [unfold payload, session_payload;
          rewrite !lookup_insert_ne by done; apply lookup_insert_eq|].
  split.
  - unfold current_uid, py_or, payload, session_payload.
    rewrite !lookup_insert_ne, lookup_empty by done. simpl.
    by rewrite lookup_insert_eq.
  - intros Hsp Hfb. unfold req, require_auth, run_handler.
    cbn [authorization]. rewrite (bearer_token _ Hsp), Hfb.
    change (truthy ("Bearer " +:+ token)) with true.
    cbn [negb truthy_claims]. rewrite Hv.
    unfold truthy_claims. rewrite bool_decide_true; [done|].
    apply insert_non_empty.
Qed.

(** X16: whatever the body of a profile request holds, the fields handed to
    the identity provider are among [display_name], [photo_url] and [email],
    each with the value of [displayName], [photoURL] or [email] of the body
    and never None; so the profile endpoint cannot set [password] or
    [disabled].  With no such field the provider is not called and the
    reply carries no user. *)
Theorem profile_update_reaches_only_profile_fields
    (fb_update : pyval -> gmap string pyval -> outcome user_record)
    (data : gmap string pyval) :
  (forall k v, update_params (profile_updates data) !! k = Some v ->
     v <> VNone /\ k <> "password" /\ k <> "disabled" /\
     ((k = "display_name" /\ data !! "displayName" = Some v) \/
      (k = "photo_url" /\ data !! "photoURL" = Some v) \/
      (k = "email" /\ data !! "email" = Some v))) /\
  (forall a claims, update_params (profile_updates data) = ∅ ->
     update_profile fb_update (Request a (Some claims)) data = UpdateOk None) /\
  (forall a claims, update_params (profile_updates data) <> ∅ ->
     update_profile fb_update (Request a (Some claims)) data
     = match fb_update (current_uid claims) (update_params (profile_updates data)) with
       | Ret u => UpdateOk (Some (profile_of u))
       | Raise e => UpdateError e 400
       end).
Proof.
  split; [|split].
  - intros k v Hk. apply AuthProofs.update_params_lookup in Hk as (Hk & _ & Hv).
    rewrite profile_updates_lookup in Hk.
    repeat case_decide; subst; try done; repeat split; try done; tauto.
  - intros a claims He. unfold update_profile, update_user_obj. simpl.
    by rewrite decide_True.
  - intros a claims Hne. unfold update_profile, update_user_obj. simpl.
    rewrite decide_False by done. by destruct (fb_update _ _).
Qed.

(** X17: the password endpoint reports success only for a string password
    of at least six characters that the identity provider accepted as the
    single field [password]; for a shorter password the reply does not
    depend on the identity provider. *)
Theorem password_update_needs_six_characters
    (fb_update : pyval -> gmap string pyval -> outcome user_record)
    (req : request) (data : gmap string pyval) :
  (update_password fb_update req data = PasswordOk ->
   exists s claims u,
     data !! "password" = Some (VStr s) /\ 6 <= String.length s /\
     user req = Some claims /\
     fb_update (current_uid claims) (<["password" := VStr s]> ∅) = Ret u) /\
  (forall s fb_update', data !! "password" = Some (VStr s) ->
     String.length s < 6 ->
     update_password fb_update req data = update_password fb_update' req data /\
     update_password fb_update req data <> PasswordOk).
Proof.
  unfold update_password. split.
  - destruct (user req) as [claims|]; [|done].
    destruct (data !! "password") as [pw|] eqn:Hpw; simpl default; [|done].
    destruct (pyval_truthy pw) eqn:Ht; [|done]. simpl negb. cbv iota.
    destruct pw as [|s|b|z]; try done. simpl py_len. cbv iota.
    destruct (Nat.ltb_spec (String.length s) 6); [done|].
    unfold update_user_obj. rewrite password_params by done.
    rewrite decide_False by apply insert_non_empty.
    destruct (fb_update _ _) as [u|e] eqn:E; [|done].
    intros _. by eauto 10.
  - intros s fb' -> Hlen. simpl default.
    destruct (user req) as [claims|]; [|done].
    destruct (pyval_truthy (VStr s)); [|done]. simpl.
    destruct (Nat.ltb_spec (String.length s) 6); [done|lia].
Qed.

(** X18: [/api/auth/verify] hands out a session token only when the body
    holds a non-empty string [idToken] that the identity provider verified
    with claims that have a [uid]; the token is then the one issued for that
    uid and the email of the claims (the empty string when they have none).
    Without an [idToken] the answer is 400, and for a token the provider
    rejects it is 401. *)
Theorem session_only_for_verified_tokens
    (fb_verify_id_token : string -> outcome (gmap string pyval))
    (fb_get_user : pyval -> outcome fetched_user)
    (jwt_encode : gmap string pyval -> string -> string)
    (getenv : string -> option string) (utcnow : Z)
    (data : gmap string pyval) :
  let reply := verify_token fb_verify_id_token fb_get_user jwt_encode getenv
                 utcnow data in
  (forall tok info, reply = VerifyOk tok info ->
     exists s claims uid,
       data !! "idToken" = Some (VStr s) /\ s <> "" /\
       fb_verify_id_token s = Ret claims /\ claims !! "uid" = Some uid /\
       tok = create_session_token jwt_encode getenv utcnow uid
               (default (VStr "") (claims !! "email")) /\
       info = get_user_info fb_get_user uid) /\
  (data !! "idToken" = None -> reply = VerifyError "No token provided" 400) /\
  (forall s e, data !! "idToken" = Some (VStr s) -> s <> "" ->
     fb_verify_id_token s = Raise e -> reply = VerifyError "Invalid token" 401).
Proof.
  intros reply. unfold reply, verify_token. split; [|split].
  - intros tok info.
    destruct (data !! "idToken") as [v|] eqn:Hv; simpl default; [|done].
    destruct (pyval_truthy v) eqn:Ht; [|done]. simpl negb. cbv iota.
    destruct v as [|s|b|z]; try done.
    unfold verify_json_token, verify_firebase_token.
    destruct (fb_verify_id_token s) as [claims|e] eqn:Hfb; [|done].
    destruct (truthy_claims (Some claims)); [|done]. simpl negb. cbv iota.
    destruct (claims !! "uid") as [uid|] eqn:Huid; [|done].
    intros [= <- <-]. exists s, claims, uid.
    repeat split; try done. intros ->. done.
  - by intros ->.
  - intros s e -> Hs Hfb. simpl default.
    replace (pyval_truthy (VStr s)) with true by (by destruct s).
    simpl. unfold verify_firebase_token. by rewrite Hfb.
Qed.

(** X19: every answer the decorator gives on its own has status 401 and one
    of three messages; any other answer is the endpoint's. *)
Theorem require_auth_rejects_with_401 {R : Type}
    (fb_verify_id_token : string -> outcome (gmap string pyval))
    (jwt_decode : string -> string -> jwt_outcome)
    (getenv : string -> option string)
    (f : request -> outcome R) (req : request) (e : string) (st : Z) :
  require_auth fb_verify_id_token jwt_decode getenv f req = ErrorReply e st ->
  st = 401%Z /\
  e ∈ ["No authorization header"; "Authentication failed"; "Invalid token"].
Proof.
  unfold require_auth. intros H.
  assert (forall m, ErrorReply (R := R) m 401 = ErrorReply e st ->
            m ∈ ["No authorization header"; "Authentication failed";
                 "Invalid token"] ->
            st = 401%Z /\
            e ∈ ["No authorization header"; "Authentication failed";
                 "Invalid token"]) as Hcase
    by (intros m [= <- <-] Hm; done).
  assert (H1 : "No authorization header"
               ∈ ["No authorization header"; "Authentication failed";
                  "Invalid token"]) by (apply list_elem_of_In; simpl; tauto).
  assert (H2 : "Authentication failed"
               ∈ ["No authorization header"; "Authentication failed";
                  "Invalid token"]) by (apply list_elem_of_In; simpl; tauto).
  assert (H3 : "Invalid token"
               ∈ ["No authorization header"; "Authentication failed";
                  "Invalid token"]) by (apply list_elem_of_In; simpl; tauto).
  destruct (authorization req) as [h|]; [|by eapply Hcase].
  destruct (truthy h); simpl in H; [|by eapply Hcase].
  destruct (split_char space h !! 1%nat) as [token|]; [|by eapply Hcase].
  destruct (if truthy_claims (verify_firebase_token fb_verify_id_token token)
            then _ else _) as [decoded|m]; [|by eapply Hcase].
  destruct (truthy_claims decoded); simpl in H; [|by eapply Hcase].
  destruct (f _); [done|by eapply Hcase].
Qed.

Lemma issued_session_token_authenticates_witness :
  require_auth sample_fb_verify sample_read sample_getenv echo_user
    (Request (Some ("Bearer " +:+ "issued-token")) None)
  = HandlerReply (Some (session_payload 0 (VStr "u1") (VStr "ann@example.org"))).
Proof.
  apply (issued_session_token_authenticates sample_fb_verify sample_issue
           sample_read sample_getenv 0 echo_user (VStr "u1")
           (VStr "ann@example.org") None); reflexivity.
Defined.

Lemma profile_update_reaches_only_profile_fields_witness :
  update_profile sample_update (Request None (Some sample_claims))
    (<["displayName" := VStr "Ann"]> (<["password" := VStr "x"]> ∅))
  = UpdateOk (Some (Profile "u1" VNone (VStr "Ann") VNone)).
Proof.
  destruct (profile_update_reaches_only_profile_fields sample_update
              (<["displayName" := VStr "Ann"]> (<["password" := VStr "x"]> ∅)))
    as (_ & _ & H).
  rewrite H; [reflexivity|].
  intros E. apply (f_equal (fun m => m !! "display_name")) in E.
  vm_compute in E. discriminate.
Defined.

Lemma password_update_needs_six_characters_witness :
  update_password sample_update (Request None (Some sample_claims))
    (<["password" := VStr "abc"]> ∅)
  <> PasswordOk.
Proof.
  apply (password_update_needs_six_characters sample_update
           (Request None (Some sample_claims)) (<["password" := VStr "abc"]> ∅))
    with (s := "abc") (fb_update' := sample_update); [reflexivity|simpl; lia].
Defined.

Lemma session_only_for_verified_tokens_witness :
  verify_token sample_fb_verify sample_get_user sample_issue sample_getenv 0
    (<["idToken" := VStr "bad"]> ∅)
  = VerifyError "Invalid token" 401.
Proof.
  apply (session_only_for_verified_tokens sample_fb_verify sample_get_user
           sample_issue sample_getenv 0 (<["idToken" := VStr "bad"]> ∅))
    with (s := "bad") (e := "invalid identity token");
    [reflexivity|discriminate|reflexivity].
Defined.

Lemma require_auth_rejects_with_401_witness :
  401%Z = 401%Z /\
  "Invalid token"
  ∈ ["No authorization header"; "Authentication failed"; "Invalid token"].
Proof.
  apply (require_auth_rejects_with_401 sample_fb_verify sample_jwt_decode
           sample_getenv echo_user (Request (Some "Bearer bad") None)).
  reflexivity.
Defined.

End SessionFacts.

(** ** app.py: workspaces and invites *)

Module WorkspaceFacts.
Import AuthService Sessions Workspaces.

Lemma list_step_entry (uid : pyval) (acc : list workspace_entry)
    (item : string * workspace) :
  list_step uid acc item
  = acc ++ match entry_of uid item with Some e => [e] | None => [] end.
Proof.
  destruct item as [wid [name members]]. unfold list_step, entry_of. simpl.
  destruct members as [members|]; simpl.
  - destruct (member_role uid members); [done|by rewrite app_nil_r].
  - replace (member_role uid ∅) with (@None pyval).
    + by rewrite app_nil_r.
    + destruct uid; simpl; by rewrite ?lookup_empty.
Qed.

Lemma list_fold (uid : pyval) (items : list (string * workspace))
    (acc : list workspace_entry) :
  fold_left (list_step uid) items acc = acc ++ omap (entry_of uid) items.
Proof.
  revert acc. induction items as [|item items IH]; intros acc; simpl.
  - by rewrite app_nil_r.
  - rewrite IH, list_step_entry, <- app_assoc. f_equal.
    by destruct (entry_of uid item).
Qed.

Lemma safe_email_cons (c : ascii) (r : string) :
  safe_email (String c r)
  = String (if Ascii.eqb c dot then ","%char else c) (safe_email r).
Proof.
  unfold safe_email, replace. cbn [replace_aux String.prefix].
  destruct (ascii_dec "."%char c) as [<-|Hne].
  - by destruct r.
  - replace (Ascii.eqb c dot) with false; [done|].
    symmetry. apply Ascii.eqb_neq. intros ->. by apply Hne.
Qed.

Lemma unsafe_email_cons (c : ascii) (r : string) :
  replace "," "." (String c r)
  = String (if Ascii.eqb c comma then dot else c) (replace "," "." r).
Proof.
  unfold replace. cbn [replace_aux String.prefix].
  destruct (ascii_dec ","%char c) as [<-|Hne].
  - by destruct r.
  - replace (Ascii.eqb c comma) with false; [done|].
    symmetry. apply Ascii.eqb_neq. intros ->. by apply Hne.
Qed.

Lemma safe_email_undo (email : string) :
  has_char comma email = false -> replace "," "." (safe_email email) = email.
Proof.
  induction email as [|c r IH]; [done|].
  simpl has_char. intros H. apply orb_false_iff in H as [Hc Hr].
  rewrite safe_email_cons, unsafe_email_cons, (IH Hr). f_equal.
  destruct (Ascii.eqb_spec c dot) as [->|Hd]; [done|]. by rewrite Hc.
Qed.

(** X20: the workspace listing shows a workspace exactly when the store has
    it with the caller's uid among the keys of its [members] node; the
    entry carries its id, its name ([Unnamed] when it has none) and the
    caller's role there; no workspace of which the caller is not a member
    is ever listed, and the entries keep the order of the store. *)
Theorem list_workspaces_membership
    (db_get_workspaces : outcome (option (list (string * workspace))))
    (req : request) (ws : list workspace_entry) :
  list_workspaces db_get_workspaces req = ListOk ws ->
  exists claims all,
    user req = Some claims /\ db_get_workspaces = Ret all /\
    ws = omap (entry_of (current_uid claims)) (default [] all) /\
    forall e, e ∈ ws <->
      exists w members s,
        (we_id e, w) ∈ default [] all /\ w_members w = Some members /\
        current_uid claims = VStr s /\ members !! s = Some (we_role e) /\
        we_name e = default (VStr "Unnamed") (w_name w).
Proof.
  unfold list_workspaces.
  destruct (user req) as [claims|]; [|done].
  destruct db_get_workspaces as [all|e]; [|done].
  intros [= <-]. exists claims, all. split; [done|]. split; [done|].
  rewrite list_fold. simpl. split; [done|].
  intros e. rewrite list_elem_of_omap. split.
  - intros ([wid w] & Hin & He). unfold entry_of in He. simpl in He.
    destruct (w_members w) as [members|] eqn:Hm; [|done].
    destruct (member_role _ members) as [role|] eqn:Hr; [|done].
    injection He as <-. simpl.
    unfold member_role in Hr.
    destruct (current_uid claims) as [|s| |]; try done.
    by exists w, members, s.
  - intros (w & members & s & Hin & Hm & Hu & Hr & Hn).
    exists (we_id e, w). split; [done|].
    unfold entry_of. simpl. rewrite Hm, Hu. simpl. rewrite Hr.
    destruct e; simpl in *. by rewrite Hn.
Qed.

(** X21: the store key made of an email has no dot and the length of the
    email; for an email without a comma, putting the dots back gives the
    email, so two such emails never share a key. *)
Theorem safe_email_key (email : string) :
  has_char dot (safe_email email) = false /\
  String.length (safe_email email) = String.length email /\
  (has_char comma email = false ->
   replace "," "." (safe_email email) = email /\
   forall email', has_char comma email' = false ->
     safe_email email = safe_email email' -> email = email').
Proof.
  split; [|split].
  - induction email as [|c r IH]; [done|].
    rewrite safe_email_cons. simpl has_char. rewrite IH.
    destruct (Ascii.eqb_spec c dot) as [->|Hd]; [done|].
    apply Ascii.eqb_neq in Hd. by rewrite Hd.
  - induction email as [|c r IH]; [done|].
    rewrite safe_email_cons. simpl. by rewrite IH.
  - intros H. split; [by apply safe_email_undo|].
    intros email' H' E.
    rewrite <- (safe_email_undo email H), <- (safe_email_undo email' H').
    by rewrite E.
Qed.

Lemma list_workspaces_membership_witness :
  exists claims all,
    user (Request None (Some sample_claims)) = Some claims /\
    Ret (Some sample_store) = Ret all /\
    [WorkspaceEntry "w1" (VStr "Notes") (VStr "owner")]
    = omap (entry_of (current_uid claims)) (default [] all) /\
    forall e, e ∈ [WorkspaceEntry "w1" (VStr "Notes") (VStr "owner")] <->
      exists w members s,
        (we_id e, w) ∈ default [] all /\ w_members w = Some members /\
        current_uid claims = VStr s /\ members !! s = Some (we_role e) /\
        we_name e = default (VStr "Unnamed") (w_name w).
Proof.
  apply (list_workspaces_membership (Ret (Some sample_store))
           (Request None (Some sample_claims))).
  reflexivity.
Defined.

Lemma safe_email_key_witness :
  replace "," "." (safe_email "ann.lee@example.org") = "ann.lee@example.org".
Proof.
  destruct (safe_email_key "ann.lee@example.org") as (_ & _ & H).
  destruct (H eq_refl) as [Hback _]. exact Hback.
Defined.

End WorkspaceFacts.
